(** * mesoSPIM_Core: the acquisition orchestration engine

    A shallow embedding of [mesoSPIM/src/mesoSPIM_Core.py].  The engine is
    stateful Python driven by Qt signals; it is embedded here as commands
    over an explicit engine state:

    - the attributes of [self] and the keys of the shared state singleton
      are fields of the records [Core] and [SharedState];
    - every emitted signal and every call into a collaborator object
      (shutters, laser enabler, waveform generator, file system) is appended
      to a chronological [trace];
    - an exception is an outcome of its own, and the unbounded [while]
      loops take fuel. *)

From Stdlib Require Import Ascii.
From stdpp Require Import base numbers list strings gmap pretty.

Open Scope string_scope.
Open Scope list_scope.

(** ** Python values *)

(** Values stored in the shared state and in the fields of an acquisition.
    The engine only stores, copies, compares and prints them.  A float is
    carried by its [repr], which is also what [str] prints. *)
Inductive value :=
  | VNone
  | VBool (b : bool)
  | VInt (z : Z)
  | VFloat (repr : string)
  | VStr (s : string).

#[global] Instance value_eq_dec : EqDecision value.
Proof. solve_decision. Defined.

(** [str(value)] *)
Definition py_str (v : value) : string :=
  match v with
  | VNone => "None"
  | VBool true => "True"
  | VBool false => "False"
  | VInt z => pretty z
  | VFloat repr => repr
  | VStr s => s
  end.

(** A position dictionary (axis name to coordinate), opaque to the engine. *)
Abbreviation position := (list (string * value)).

(** ** Acquisitions *)

(** [utils/acquisitions.py] is a collaborator module: an [Acquisition] is
    read through [acq['key']] and three methods, whose results are fields
    here: [planes] is [acq.get_image_count()], [startpoint] is
    [acq.get_startpoint()] and [delta_z] is [acq.get_delta_z_dict()]. *)
Record Acquisition := {
  acq_folder : string;
  acq_filename : string;
  acq_filter : string;
  acq_zoom : value;
  acq_laser : value;
  acq_intensity : value;
  acq_shutter : value;
  acq_x_pos : value;
  acq_y_pos : value;
  acq_f_pos : value;
  acq_z_start : value;
  acq_z_end : value;
  acq_z_step : value;
  planes : nat;
  startpoint : position;
  delta_z : position;
}.

(** Modelled from the spec: [AcquisitionList.get_image_count] is not part of
    the engine's module; the spec describes it as the total image count
    across the members of the list. *)
Definition get_image_count (acq_list : list Acquisition) : nat :=
  foldr (fun acq n => planes acq + n) 0 acq_list.

(** ** Progress records, events, exceptions *)

Module Progress.
(** The dictionary built by [send_progress]. *)
Record t := {
  current_acq : nat;
  total_acqs : nat;
  current_image_in_acq : nat;
  images_in_acq : nat;
  total_image_count : nat;
  image_counter : nat;
}.
End Progress.

Inductive exn :=
  | NameError (name : string)
  | IndexError
  | ScriptError (msg : string).

(** Everything the engine does to the outside, in the order it does it. *)
Inductive event :=
  | SigFinished
  | SigUpdateGui (flag : bool)
  | SigStateRequest (key : string) (v : value) (wait_until_done : bool)
  | SigProgress (r : Progress.t)
  | SigPrepareImageSeries (acq : Acquisition)
  | SigAddImages
  | SigEndImageSeries
  | SigMoveRelative (d : position) (wait_until_done : bool)
  | SigMoveAbsolute (d : position) (wait_until_done : bool)
  | LaserEnable (laser : value)
  | ShutterLeft (opened : bool)
  | ShutterRight (opened : bool)
  | WfCreate
  | WfWrite
  | WfStart
  | WfRun
  | WfStop
  | WfClose
  | ProcessEvents
  | FileWrite (path : string)
  | PrintExc (e : exn).

(** ** Engine state *)

(** The shared state singleton [self.state].  The keys the engine reads
    structurally are typed fields; every other key lives in [st_params].
    The singleton is created with all its keys, so a read of a missing key
    is not modelled: [getp] gives [VNone] there. *)
Record SharedState := {
  st_state : string;
  st_shutterconfig : value;
  st_shutterstate : bool;
  st_acq_list : list Acquisition;
  st_selected_row : nat;
  st_params : gmap string value;
}.

Definition getp (st : SharedState) (key : string) : value :=
  default VNone (st_params st !! key).

Definition st_with_state (v : string) (st : SharedState) : SharedState :=
  {| st_state := v; st_shutterconfig := st_shutterconfig st;
     st_shutterstate := st_shutterstate st; st_acq_list := st_acq_list st;
     st_selected_row := st_selected_row st; st_params := st_params st |}.

Definition st_with_shutterconfig (v : value) (st : SharedState) : SharedState :=
  {| st_state := st_state st; st_shutterconfig := v;
     st_shutterstate := st_shutterstate st; st_acq_list := st_acq_list st;
     st_selected_row := st_selected_row st; st_params := st_params st |}.

Definition st_with_shutterstate (v : bool) (st : SharedState) : SharedState :=
  {| st_state := st_state st; st_shutterconfig := st_shutterconfig st;
     st_shutterstate := v; st_acq_list := st_acq_list st;
     st_selected_row := st_selected_row st; st_params := st_params st |}.

(** The attributes of [self], the two physical shutters ([true] is open),
    the number of [processEvents] calls made so far, the files written and
    the trace. *)
Record Core := {
  state : SharedState;
  stopflag : bool;
  shutter_left : bool;
  shutter_right : bool;
  image_count : nat;
  acquisition_count : nat;
  total_acquisition_count : nat;
  total_image_count : nat;
  polls : nat;
  files : gmap string (list string);
  trace : list event;
}.

Definition with_state (f : SharedState -> SharedState) (s : Core) : Core :=
  {| state := f (state s); stopflag := stopflag s;
     shutter_left := shutter_left s; shutter_right := shutter_right s;
     image_count := image_count s; acquisition_count := acquisition_count s;
     total_acquisition_count := total_acquisition_count s;
     total_image_count := total_image_count s; polls := polls s;
     files := files s; trace := trace s |}.

Definition with_stopflag (b : bool) (s : Core) : Core :=
  {| state := state s; stopflag := b;
     shutter_left := shutter_left s; shutter_right := shutter_right s;
     image_count := image_count s; acquisition_count := acquisition_count s;
     total_acquisition_count := total_acquisition_count s;
     total_image_count := total_image_count s; polls := polls s;
     files := files s; trace := trace s |}.

Definition with_shutter_left (b : bool) (s : Core) : Core :=
  {| state := state s; stopflag := stopflag s;
     shutter_left := b; shutter_right := shutter_right s;
     image_count := image_count s; acquisition_count := acquisition_count s;
     total_acquisition_count := total_acquisition_count s;
     total_image_count := total_image_count s; polls := polls s;
     files := files s; trace := trace s |}.

Definition with_shutter_right (b : bool) (s : Core) : Core :=
  {| state := state s; stopflag := stopflag s;
     shutter_left := shutter_left s; shutter_right := b;
     image_count := image_count s; acquisition_count := acquisition_count s;
     total_acquisition_count := total_acquisition_count s;
     total_image_count := total_image_count s; polls := polls s;
     files := files s; trace := trace s |}.

Definition with_image_count (n : nat) (s : Core) : Core :=
  {| state := state s; stopflag := stopflag s;
     shutter_left := shutter_left s; shutter_right := shutter_right s;
     image_count := n; acquisition_count := acquisition_count s;
     total_acquisition_count := total_acquisition_count s;
     total_image_count := total_image_count s; polls := polls s;
     files := files s; trace := trace s |}.

Definition with_acquisition_count (n : nat) (s : Core) : Core :=
  {| state := state s; stopflag := stopflag s;
     shutter_left := shutter_left s; shutter_right := shutter_right s;
     image_count := image_count s; acquisition_count := n;
     total_acquisition_count := total_acquisition_count s;
     total_image_count := total_image_count s; polls := polls s;
     files := files s; trace := trace s |}.

Definition with_total_acquisition_count (n : nat) (s : Core) : Core :=
  {| state := state s; stopflag := stopflag s;
     shutter_left := shutter_left s; shutter_right := shutter_right s;
     image_count := image_count s; acquisition_count := acquisition_count s;
     total_acquisition_count := n;
     total_image_count := total_image_count s; polls := polls s;
     files := files s; trace := trace s |}.

Definition with_total_image_count (n : nat) (s : Core) : Core :=
  {| state := state s; stopflag := stopflag s;
     shutter_left := shutter_left s; shutter_right := shutter_right s;
     image_count := image_count s; acquisition_count := acquisition_count s;
     total_acquisition_count := total_acquisition_count s;
     total_image_count := n; polls := polls s;
     files := files s; trace := trace s |}.

Definition with_polls (n : nat) (s : Core) : Core :=
  {| state := state s; stopflag := stopflag s;
     shutter_left := shutter_left s; shutter_right := shutter_right s;
     image_count := image_count s; acquisition_count := acquisition_count s;
     total_acquisition_count := total_acquisition_count s;
     total_image_count := total_image_count s; polls := n;
     files := files s; trace := trace s |}.

Definition with_files (f : gmap string (list string)) (s : Core) : Core :=
  {| state := state s; stopflag := stopflag s;
     shutter_left := shutter_left s; shutter_right := shutter_right s;
     image_count := image_count s; acquisition_count := acquisition_count s;
     total_acquisition_count := total_acquisition_count s;
     total_image_count := total_image_count s; polls := polls s;
     files := f; trace := trace s |}.

Definition log (e : event) (s : Core) : Core :=
  {| state := state s; stopflag := stopflag s;
     shutter_left := shutter_left s; shutter_right := shutter_right s;
     image_count := image_count s; acquisition_count := acquisition_count s;
     total_acquisition_count := total_acquisition_count s;
     total_image_count := total_image_count s; polls := polls s;
     files := files s; trace := trace s ++ [e] |}.

(** ** Commands *)

(** A method either returns, or raises, or has not finished when the fuel
    of a [while] loop (or the patience with a script) ran out. *)
Inductive outcome :=
  | Done (s : Core)
  | Raised (e : exn) (s : Core)
  | Unfinished.

Definition cmd := Core -> outcome.

Definition seq_cmd (c1 c2 : cmd) : cmd :=
  fun s =>
    match c1 s with
    | Done s' => c2 s'
    | Raised e s' => Raised e s'
    | Unfinished => Unfinished
    end.

Declare Scope cmd_scope.
Delimit Scope cmd_scope with cmd.
Bind Scope cmd_scope with cmd.
Notation "c1 ;; c2" := (seq_cmd c1 c2)
  (at level 100, c2 at level 200, right associativity) : cmd_scope.
Open Scope cmd_scope.

(** A step that cannot fail. *)
Definition step (f : Core -> Core) : cmd := fun s => Done (f s).

Definition emit (e : event) : cmd := step (log e).

Definition skip : cmd := Done.

(** ** Names bound in the module *)

(** The global names of [mesoSPIM_Core.py]: its imports and its class. *)
Definition module_globals : list string :=
  [ "os"; "np"; "time"; "signal"; "csv"; "traceback";
    "QtWidgets"; "QtCore"; "QtGui";
    "mesoSPIM_StateSingleton"; "NI_Shutter"; "mesoSPIM_HamamatsuCamera";
    "mesoSPIM_LaserEnabler"; "mesoSPIM_Serial"; "mesoSPIM_WaveFormGenerator";
    "AcquisitionList"; "Acquisition"; "mesoSPIM_Core" ].

(** Evaluating an expression that starts with the global [name]. *)
Definition via_global (name : string) (c : cmd) : cmd :=
  fun s =>
    if bool_decide (name ∈ module_globals) then c s
    else Raised (NameError name) s.

#[global] Arguments via_global : simpl never.

(** ** Observations on traces *)

Fixpoint count (p : event -> bool) (t : list event) : nat :=
  match t with
  | [] => 0
  | e :: t' => (if p e then 1 else 0) + count p t'
  end.

Definition is_create (e : event) : bool :=
  match e with WfCreate => true | _ => false end.
Definition is_close (e : event) : bool :=
  match e with WfClose => true | _ => false end.
Definition is_start (e : event) : bool :=
  match e with WfStart => true | _ => false end.
Definition is_add_images (e : event) : bool :=
  match e with SigAddImages => true | _ => false end.
Definition is_end_series (e : event) : bool :=
  match e with SigEndImageSeries => true | _ => false end.
Definition is_file_write (e : event) : bool :=
  match e with FileWrite _ => true | _ => false end.
Definition is_finished (e : event) : bool :=
  match e with SigFinished => true | _ => false end.

(** The progress records of a trace, in order. *)
Fixpoint progress_of (t : list event) : list Progress.t :=
  match t with
  | [] => []
  | SigProgress r :: t' => r :: progress_of t'
  | _ :: t' => progress_of t'
  end.

(** ** A bench for running the engine *)

(** Concrete collaborators and data on which the engine is run below. *)

Definition st_with_params (f : gmap string value -> gmap string value)
    (st : SharedState) : SharedState :=
  {| st_state := st_state st; st_shutterconfig := st_shutterconfig st;
     st_shutterstate := st_shutterstate st; st_acq_list := st_acq_list st;
     st_selected_row := st_selected_row st; st_params := f (st_params st) |}.

(** A request handler that stores every requested parameter under its key
    and ignores requests for the key ['state']. *)
Definition bench_handler (key : string) (v : value) (wait_until_done : bool)
    (st : SharedState) : SharedState :=
  if decide (key = "state") then st else st_with_params <[key := v]> st.

(** A queue with one stop request, found by poll number [n], and a queue
    without any. *)
Definition stop_at (n : nat) : nat -> bool := fun p => Nat.eqb p n.
Definition never_stop : nat -> bool := fun _ => false.

Fixpoint has_slash (s : string) : bool :=
  match s with
  | EmptyString => false
  | String c r => if decide (c = "/"%char) then true else has_slash r
  end.

(** Directory and base name of a relative path with single slashes. *)
Fixpoint bench_dirname (s : string) : string :=
  match s with
  | EmptyString => EmptyString
  | String c r => if has_slash r then String c (bench_dirname r) else EmptyString
  end.

Fixpoint bench_basename (s : string) : string :=
  match s with
  | EmptyString => EmptyString
  | String c r =>
      if has_slash r then bench_basename r
      else if decide (c = "/"%char) then r else String c r
  end.

(** The start point of a list is the start point of its first member. *)
Definition bench_startpoint (acq_list : list Acquisition) : position :=
  match acq_list with
  | [] => []
  | acq :: _ => startpoint acq
  end.

(** A script interpreter that knows two scripts: ['pass'] returns, every
    other script raises. *)
Definition bench_exec (script : string) (s : Core) : outcome :=
  if decide (script = "pass") then Done s
  else Raised (ScriptError script) s.

Definition bench_acq (name : string) (count : nat) : Acquisition :=
  {| acq_folder := "data/"; acq_filename := name; acq_filter := "525/50";
     acq_zoom := VStr "1x"; acq_laser := VStr "488 nm"; acq_intensity := VInt 20;
     acq_shutter := VStr "Left";
     acq_x_pos := VInt 0; acq_y_pos := VInt 0; acq_f_pos := VInt 0;
     acq_z_start := VInt 0; acq_z_end := VInt (2 * Z.of_nat count);
     acq_z_step := VFloat "2.0";
     planes := count;
     startpoint := [("z_abs", VInt 0)];
     delta_z := [("z_rel", VFloat "2.0")] |}.

Definition bench_core (shutterconfig : value) (flag : bool)
    (acq_list : list Acquisition) : Core :=
  {| state :=
       {| st_state := "idle"; st_shutterconfig := shutterconfig;
          st_shutterstate := false; st_acq_list := acq_list;
          st_selected_row := 0;
          st_params := {[ "etl_l_amplitude" := VFloat "0.35";
                          "etl_r_amplitude" := VFloat "0.4" ]} |};
     stopflag := flag; shutter_left := false; shutter_right := false;
     image_count := 0; acquisition_count := 0;
     total_acquisition_count := 0; total_image_count := 0;
     polls := 0; files := ∅; trace := [] |}.

(** ** Numbering channels, tiles and illuminations *)

(** [utils/bigdataviewer_xml_creator.py]: the three dictionary builders of
    [mesoSPIM_XMLexporter] and the strings they number. *)

Section XMLExporter.

(** Two keys of an acquisition that the engine's module does not read. *)
Variable acq_rot acq_shutterconfig : Acquisition -> value.

Definition generate_channelstring (acq : Acquisition) : string :=
  py_str (acq_laser acq) +:+ " " +:+ acq_filter acq.

Definition generate_tilestring (acq : Acquisition) : string :=
  py_str (acq_x_pos acq) +:+ " " +:+ py_str (acq_y_pos acq) +:+ " " +:+
  py_str (acq_z_start acq) +:+ " " +:+ py_str (acq_rot acq).

Definition generate_illuminationstring (acq : Acquisition) : string :=
  py_str (acq_shutterconfig acq).

(** The body of the loop the three builders share, on the dictionary and
    the counter: a string that is not yet a key gets the numeral of the
    counter, and the counter goes up. *)
Definition number_key (keystring : Acquisition -> string)
    (acc : gmap string string * nat) (acq : Acquisition) :
    gmap string string * nat :=
  match acc.1 !! keystring acq with
  | Some _ => acc
  | None => (<[keystring acq := pretty acc.2]> acc.1, S acc.2)
  end.

Definition generate_dict (keystring : Acquisition -> string)
    (acqlist : list Acquisition) : gmap string string :=
  (foldl (number_key keystring) (∅, 0) acqlist).1.

Definition generate_channeldict : list Acquisition -> gmap string string :=
  generate_dict generate_channelstring.

Definition generate_tiledict : list Acquisition -> gmap string string :=
  generate_dict generate_tilestring.

Definition generate_illuminationdict : list Acquisition -> gmap string string :=
  generate_dict generate_illuminationstring.

End XMLExporter.

(** The distinct strings of a list, in the order of their first
    appearance. *)
Definition first_seen (keys : list string) : list string :=
  foldl (fun seen key => if decide (key ∈ seen) then seen else seen ++ [key])
    [] keys.

(** The dictionary [d] and the counter [c] number the strings [seen]:
    [seen] has no repetition, [c] is its length, and [d] maps the string at
    place [i] of [seen] to the numeral of [i], and nothing else. *)
Definition numbers (d : gmap string string) (c : nat) (seen : list string) : Prop :=
  c = length seen /\
  NoDup seen /\
  forall key id,
    d !! key = Some id <-> exists i, seen !! i = Some key /\ id = pretty i.

Section Engine.

(** ** The collaborators *)

(** The slots connected to [sig_state_request] and
    [sig_state_request_and_wait_until_done] (the waveform generator's
    [state_request_handler]) run synchronously inside [emit] and may
    update the shared state. *)
Variable on_state_request : string -> value -> bool -> SharedState -> SharedState.

(** The queue of the engine's thread: [pending n] tells whether the
    [n]-th call of [processEvents] finds a queued [{'state': 'idle'}]
    request.  Other queued requests are outside the model. *)
Variable pending : nat -> bool.

(** [os.path.dirname] and [os.path.basename]. *)
Variable dirname basename : string -> string.

(** [AcquisitionList.get_startpoint]. *)
Variable list_startpoint : list Acquisition -> position.

(** [exec(script)] with the engine in scope. *)
Variable exec_python : string -> Core -> outcome.

(** [self.sig_state_request.emit({key : value})] and its blocking variant. *)
Definition request (key : string) (v : value) (wait_until_done : bool) : cmd :=
  emit (SigStateRequest key v wait_until_done) ;;
  step (with_state (on_state_request key v wait_until_done)).

(** ** Stop and progress *)

Definition stop : cmd :=
  step (with_stopflag true) ;;
  step (with_state (st_with_state "idle")) ;;
  emit (SigUpdateGui false) ;;
  emit SigFinished.

(** The branch [state == 'idle'] of [set_state], reached from
    [state_request_handler] on the request [{'state': 'idle'}]. *)
Definition set_state_idle : cmd :=
  request "state" (VStr "idle") false ;;
  stop.

Definition processEvents : cmd :=
  fun s =>
    let s' := log ProcessEvents (with_polls (S (polls s)) s) in
    if pending (polls s) then set_state_idle s' else Done s'.

Definition send_progress (cur_acq tot_acqs cur_image images_in_acq
                          total_image_count image_counter : nat) : cmd :=
  emit (SigProgress
          {| Progress.current_acq := cur_acq;
             Progress.total_acqs := tot_acqs;
             Progress.current_image_in_acq := cur_image;
             Progress.images_in_acq := images_in_acq;
             Progress.total_image_count := total_image_count;
             Progress.image_counter := image_counter |}).

(** ** Setters *)

Definition set_filter (filter : value) (wait_until_done : bool) : cmd :=
  request "filter" filter wait_until_done.

Definition set_zoom (zoom : value) (wait_until_done : bool) : cmd :=
  request "zoom" zoom wait_until_done.

Definition set_laser (laser : value) (wait_until_done : bool) : cmd :=
  emit (LaserEnable laser) ;;
  request "laser" laser wait_until_done.

Definition set_intensity (intensity : value) (wait_until_done : bool) : cmd :=
  request "intensity" intensity wait_until_done.

Definition move_relative (d : position) (wait_until_done : bool) : cmd :=
  emit (SigMoveRelative d wait_until_done).

Definition move_absolute (d : position) (wait_until_done : bool) : cmd :=
  emit (SigMoveAbsolute d wait_until_done).

Definition set_shutterconfig (shutterconfig : value) : cmd :=
  step (with_state (st_with_shutterconfig shutterconfig)).

(** ** Shutters *)

Definition shutter_left_open : cmd :=
  step (with_shutter_left true) ;; emit (ShutterLeft true).
Definition shutter_left_close : cmd :=
  step (with_shutter_left false) ;; emit (ShutterLeft false).
Definition shutter_right_open : cmd :=
  step (with_shutter_right true) ;; emit (ShutterRight true).
Definition shutter_right_close : cmd :=
  step (with_shutter_right false) ;; emit (ShutterRight false).

Definition open_shutters : cmd :=
  fun s =>
    let shutterconfig := st_shutterconfig (state s) in
    ((if decide (shutterconfig = VStr "Both") then
        shutter_left_open ;; shutter_right_open
      else if decide (shutterconfig = VStr "Left") then
        shutter_left_open ;; shutter_right_close
      else if decide (shutterconfig = VStr "Right") then
        shutter_right_open ;; shutter_left_close
      else
        shutter_right_open ;; shutter_left_open) ;;
     step (with_state (st_with_shutterstate true))) s.

Definition close_shutters : cmd :=
  shutter_left_close ;;
  shutter_right_close ;;
  step (with_state (st_with_shutterstate false)).

(** ** Sub-imaging modes *)

Definition snap_image : cmd :=
  emit WfCreate ;; emit WfWrite ;; emit WfStart ;;
  emit WfRun ;; emit WfStop ;; emit WfClose.

Definition snap : cmd :=
  open_shutters ;; snap_image ;; close_shutters ;; emit SigFinished.

Definition prepare_image_series : cmd :=
  emit WfCreate ;; emit WfWrite.

Definition snap_image_in_series : cmd :=
  emit WfStart ;; emit WfRun ;; emit WfStop.

Definition close_image_series : cmd :=
  emit WfClose.

(** ** Metadata *)

Definition nl : string := String (Ascii.ascii_of_nat 10) EmptyString.

(** [write_line(file, key, value)]: the text it writes. *)
Definition write_line (key : string) (v : value) : string :=
  if decide (key ≠ "") then "[" +:+ key +:+ "] " +:+ py_str v +:+ nl
  else nl.

Definition metadata_path (acq : Acquisition) : string :=
  let path := acq_folder acq +:+ acq_filename acq in
  dirname path +:+ "/" +:+ basename path +:+ "_meta.txt".

(** The lines [write_metadata] writes, from the acquisition and the
    shared state at the time of the call. *)
Definition metadata_lines (acq : Acquisition) (st : SharedState) : list string :=
  let path := acq_folder acq +:+ acq_filename acq in
  [ write_line "Metadata for file" (VStr path);
    write_line "z_stepsize" (acq_z_step acq);
    write_line "" (VStr "");
    write_line "CFG" (VStr "");
    write_line "Laser" (acq_laser acq);
    write_line "Intensity (%)" (acq_intensity acq);
    write_line "Zoom" (acq_zoom acq);
    write_line "Pixelsize in um" (getp st "pixelsize");
    write_line "Filter" (VStr (acq_filter acq));
    write_line "Shutter" (acq_shutter acq);
    write_line "" (VStr "");
    write_line "POSTION" (VStr "");
    write_line "x_pos" (acq_x_pos acq);
    write_line "y_pos" (acq_y_pos acq);
    write_line "f_pos" (acq_f_pos acq);
    write_line "z_start" (acq_z_start acq);
    write_line "z_end" (acq_z_end acq);
    write_line "z_stepsize" (acq_z_step acq);
    write_line "z_planes" (VInt (Z.of_nat (planes acq)));
    write_line "" (VStr "");
    write_line "ETL PARAMETERS" (VStr "");
    write_line "ETL CFG File" (getp st "ETL_cfg_file");
    write_line "etl_l_offset" (getp st "etl_l_offset");
    write_line "etl_l_amplitude" (getp st "etl_l_amplitude");
    write_line "etl_r_offset" (getp st "etl_r_offset");
    write_line "etl_r_amplitude" (getp st "etl_r_amplitude");
    write_line "" (VStr "");
    write_line "GALVO PARAMETERS" (VStr "");
    write_line "galvo_l_frequency" (getp st "galvo_l_frequency");
    write_line "galvo_l_amplitude" (getp st "galvo_l_amplitude");
    write_line "galvo_l_offset" (getp st "galvo_l_offset");
    write_line "galvo_r_amplitude" (getp st "galvo_r_amplitude");
    write_line "galvo_r_offset" (getp st "galvo_r_offset");
    write_line "" (VStr "");
    write_line "CAMERA PARAMETERS" (VStr "");
    write_line "camera_exposure" (getp st "camera_exposure_time");
    write_line "camera_line_interval" (getp st "camera_line_interval") ].

(** [open(metadata_path, 'w')] truncates, the lines are written, the file
    is closed. *)
Definition write_metadata (acq : Acquisition) : cmd :=
  fun s =>
    let metadata_path := metadata_path acq in
    (emit (FileWrite metadata_path) ;;
     step (with_files (<[metadata_path := metadata_lines acq (state s)]> (files s)))) s.

(** ** Major imaging modes *)

Fixpoint live_loop (fuel : nat) : cmd :=
  fun s =>
    if stopflag s then Done s
    else match fuel with
         | 0 => Unfinished
         | S fuel' =>
             (snap_image ;;
              via_global "QtWidgets" processEvents ;;
              open_shutters ;;
              live_loop fuel') s
         end.

Definition live (fuel : nat) : cmd :=
  step (with_stopflag false) ;;
  open_shutters ;;
  live_loop fuel ;;
  close_shutters ;;
  emit SigFinished.

Definition prepare_acquisition_list (acq_list : list Acquisition) : cmd :=
  step (with_image_count 0) ;;
  step (with_acquisition_count 0) ;;
  step (with_total_acquisition_count (length acq_list)) ;;
  step (with_total_image_count (get_image_count acq_list)).

Definition prepare_acquisition (acq : Acquisition) : cmd :=
  move_absolute (startpoint acq) true ;;
  set_shutterconfig (acq_shutter acq) ;;
  set_filter (VStr (acq_filter acq)) true ;;
  set_zoom (acq_zoom acq) true ;;
  set_laser (acq_laser acq) true ;;
  set_intensity (acq_intensity acq) true ;;
  emit (SigPrepareImageSeries acq) ;;
  prepare_image_series ;;
  write_metadata acq.

(** One pass through the body of [for i in range(steps)] after the stop
    check. *)
Definition capture_plane (acq : Acquisition) (steps i : nat) : cmd :=
  step (fun s => with_image_count (image_count s + 1) s) ;;
  snap_image_in_series ;;
  emit SigAddImages ;;
  via_global "QtWidgets" processEvents ;;
  move_relative (delta_z acq) true ;;
  (fun s => send_progress (acquisition_count s)
              (total_acquisition_count s) i steps
              (total_image_count s) (image_count s) s).

(** [for i in range(steps)], with [n] iterations left and [i] the next
    index. *)
Fixpoint plane_loop (acq : Acquisition) (steps i n : nat) : cmd :=
  fun s =>
    match n with
    | 0 => Done s
    | S n' =>
        if stopflag s then
          (close_image_series ;; emit SigEndImageSeries) s
        else
          (capture_plane acq steps i ;; plane_loop acq steps (S i) n') s
    end.

Definition run_acquisition (acq : Acquisition) : cmd :=
  let steps := planes acq in
  open_shutters ;;
  plane_loop acq steps 0 steps ;;
  close_shutters.

Definition close_acquisition (acq : Acquisition) : cmd :=
  (fun s =>
     if negb (stopflag s) then
       (move_absolute (startpoint acq) true ;; close_image_series) s
     else Done s) ;;
  emit SigEndImageSeries ;;
  step (fun s => with_acquisition_count (acquisition_count s + 1) s).

(** One round of the loop body of [run_acquisition_list]. *)
Definition acquire (acq : Acquisition) : cmd :=
  prepare_acquisition acq ;;
  run_acquisition acq ;;
  close_acquisition acq.

Fixpoint run_acquisition_list (acq_list : list Acquisition) : cmd :=
  match acq_list with
  | [] => skip
  | acq :: rest => acquire acq ;; run_acquisition_list rest
  end.

Definition close_acquisition_list (acq_list : list Acquisition) : cmd :=
  (fun s =>
     if negb (stopflag s) then move_absolute (list_startpoint acq_list) false s
     else Done s) ;;
  emit SigFinished.

Definition start (row : option nat) : cmd :=
  step (with_stopflag false) ;;
  (fun s =>
     let selected :=
       match row with
       | None => Some (st_acq_list (state s))
       | Some row => (fun acquisition => [acquisition]) <$> st_acq_list (state s) !! row
       end in
     match selected with
     | None => Raised IndexError s
     | Some acq_list =>
         (emit (SigUpdateGui true) ;;
          prepare_acquisition_list acq_list ;;
          run_acquisition_list acq_list ;;
          close_acquisition_list acq_list ;;
          emit (SigUpdateGui false)) s
     end).

Definition execute_script (script : string) : cmd :=
  emit (SigUpdateGui true) ;;
  step (with_state (st_with_state "running_script")) ;;
  (fun s =>
     match exec_python script s with
     | Done s' => Done s'
     | Raised e s' => emit (PrintExc e) s'
     | Unfinished => Unfinished
     end) ;;
  emit SigFinished ;;
  step (with_state (st_with_state "idle")) ;;
  emit (SigUpdateGui false).

Fixpoint alignment_loop (fuel : nat) : cmd :=
  fun s =>
    if stopflag s then Done s
    else match fuel with
         | 0 => Unfinished
         | S fuel' =>
             (shutter_left_open ;;
              snap_image ;;
              shutter_left_close ;;
              shutter_right_open ;;
              snap_image ;;
              shutter_right_close ;;
              via_global "QApplication" processEvents ;;
              alignment_loop fuel') s
         end.

Definition lightsheet_alignment_mode (fuel : nat) : cmd :=
  step (with_stopflag false) ;;
  alignment_loop fuel ;;
  close_shutters ;;
  emit SigFinished.

Fixpoint visual_loop (fuel : nat) : cmd :=
  fun s =>
    if stopflag s then Done s
    else match fuel with
         | 0 => Unfinished
         | S fuel' =>
             (snap_image_in_series ;;
              via_global "QtWidgets" processEvents ;;
              open_shutters ;;
              visual_loop fuel') s
         end.

Definition visual_mode (fuel : nat) : cmd :=
  fun s =>
    let old_l_amp := getp (state s) "etl_l_amplitude" in
    let old_r_amp := getp (state s) "etl_r_amplitude" in
    (request "etl_l_amplitude" (VInt 0) false ;;
     request "etl_r_amplitude" (VInt 0) false ;;
     prepare_image_series ;;
     step (with_stopflag false) ;;
     open_shutters ;;
     visual_loop fuel ;;
     close_image_series ;;
     close_shutters ;;
     emit SigFinished ;;
     request "etl_l_amplitude" old_l_amp false ;;
     request "etl_r_amplitude" old_r_amp false) s.

(** ** Mode changes and the request handler *)

Definition set_camera_exposure_time (time : value) : cmd :=
  request "camera_exposure_time" time false.

Definition set_camera_line_interval (time : value) : cmd :=
  request "camera_line_interval" time false.

(** [set_state(state)]; a value that is none of the six names falls
    through every branch. *)
Definition set_state (fuel : nat) (mode : value) : cmd :=
  if decide (mode = VStr "live") then
    step (with_state (st_with_state "live")) ;;
    request "state" (VStr "live") false ;;
    live fuel
  else if decide (mode = VStr "run_selected_acquisition") then
    step (with_state (st_with_state "run_selected_acquisition")) ;;
    request "state" (VStr "run_selected_acquisition") false ;;
    (fun s => start (Some (st_selected_row (state s))) s)
  else if decide (mode = VStr "run_acquisition_list") then
    step (with_state (st_with_state "run_acquisition_list")) ;;
    request "state" (VStr "run_acquisition_list") false ;;
    start None
  else if decide (mode = VStr "idle") then
    set_state_idle
  else if decide (mode = VStr "lightsheet_alignment_mode") then
    step (with_state (st_with_state "lightsheet_alignment_mode")) ;;
    request "state" (VStr "live") false ;;
    lightsheet_alignment_mode fuel
  else if decide (mode = VStr "visual_mode") then
    step (with_state (st_with_state "visual_mode")) ;;
    request "state" (VStr "live") false ;;
    visual_mode fuel
  else skip.

(** The keys [state_request_handler] serves with a setter of the engine,
    and the keys it forwards to the waveform generator. *)
Definition engine_keys : list string :=
  [ "filter"; "zoom"; "laser"; "intensity"; "shutterconfig"; "state";
    "camera_exposure_time"; "camera_line_interval" ].

Definition waveform_keys : list string :=
  [ "samplerate"; "sweeptime"; "ETL_cfg_file";
    "etl_l_delay_%"; "etl_l_ramp_rising_%"; "etl_l_ramp_falling_%";
    "etl_l_amplitude"; "etl_l_offset";
    "etl_r_delay_%"; "etl_r_ramp_rising_%"; "etl_r_ramp_falling_%";
    "etl_r_amplitude"; "etl_r_offset";
    "galvo_l_frequency"; "galvo_l_amplitude"; "galvo_l_offset";
    "galvo_l_duty_cycle"; "galvo_l_phase";
    "galvo_r_frequency"; "galvo_r_amplitude"; "galvo_r_offset";
    "galvo_r_duty_cycle"; "galvo_r_phase";
    "laser_l_delay_%"; "laser_l_pulse_%"; "laser_l_max_amplitude";
    "laser_r_delay_%"; "laser_r_pulse_%"; "laser_r_max_amplitude";
    "camera_delay_%"; "camera_pulse_%" ].

(** [exec('self.set_'+key+'(value)')] for a key of [engine_keys]. *)
Definition call_setter (fuel : nat) (key : string) (v : value) : cmd :=
  if decide (key = "filter") then set_filter v false
  else if decide (key = "zoom") then set_zoom v false
  else if decide (key = "laser") then set_laser v false
  else if decide (key = "intensity") then set_intensity v false
  else if decide (key = "shutterconfig") then set_shutterconfig v
  else if decide (key = "state") then set_state fuel v
  else if decide (key = "camera_exposure_time") then set_camera_exposure_time v
  else set_camera_line_interval v.

(** [state_request_handler(dict)], the dictionary as the list of its items
    in iteration order. *)
Fixpoint state_request_handler (fuel : nat) (dict : list (string * value)) : cmd :=
  match dict with
  | [] => skip
  | (key, v) :: rest =>
      (if bool_decide (key ∈ engine_keys) then call_setter fuel key v
       else if bool_decide (key ∈ waveform_keys) then request key v false
       else skip) ;;
      state_request_handler fuel rest
  end.

(** ** Specification vocabulary *)

(** The control skeleton of the per-plane loop as a function of the
    queue alone: started with the stop flag [flag] and [p] polls made,
    [n] iterations capture [captured flag p n] planes and leave the stop
    flag at [flag_after flag p n]. *)
Fixpoint captured (flag : bool) (p n : nat) : nat :=
  match n with
  | 0 => 0
  | S n' => if flag then 0 else S (captured (pending p) (S p) n')
  end.

Fixpoint flag_after (flag : bool) (p n : nat) : bool :=
  match n with
  | 0 => flag
  | S n' => if flag then true else flag_after (pending p) (S p) n'
  end.

(** The first stop request is found by poll number [p + n]. *)
Definition first_stop (p n : nat) : Prop :=
  pending (p + n) = true /\ forall j, j < n -> pending (p + j) = false.

(** A set stop flag goes with the state ['idle']. *)
Definition stopped_idle (s : Core) : Prop :=
  stopflag s = true -> st_state (state s) = "idle".

(** The blocking requests of [prepare_acquisition] leave the key
    ['state'] alone. *)
Definition keeps_state : Prop :=
  forall key v st, st_state (on_state_request key v true st) = st_state st.

(** The progress record sent [j] planes after the per-plane loop stood
    in [s] at index [i]. *)
Definition progress_at (s : Core) (steps i j : nat) : Progress.t :=
  {| Progress.current_acq := acquisition_count s;
     Progress.total_acqs := total_acquisition_count s;
     Progress.current_image_in_acq := i + j;
     Progress.images_in_acq := steps;
     Progress.total_image_count := total_image_count s;
     Progress.image_counter := image_count s + 1 + j |}.

(** What [n] iterations of the per-plane loop, started in [s] at index
    [i], have done when they leave [s'] after the events [t]. *)
Record loop_summary (steps i n : nat) (s s' : Core) (t : list event) : Prop := {
  ls_trace : trace s' = trace s ++ t;
  ls_image_count :
    image_count s' = image_count s + captured (stopflag s) (polls s) n;
  ls_polls : polls s' = polls s + captured (stopflag s) (polls s) n;
  ls_stopflag : stopflag s' = flag_after (stopflag s) (polls s) n;
  ls_acquisition_count : acquisition_count s' = acquisition_count s;
  ls_total_acquisition_count :
    total_acquisition_count s' = total_acquisition_count s;
  ls_total_image_count : total_image_count s' = total_image_count s;
  ls_files : files s' = files s;
  ls_shutter_left : shutter_left s' = shutter_left s;
  ls_shutter_right : shutter_right s' = shutter_right s;
  ls_idle : stopped_idle s -> stopped_idle s';
  ls_create : count is_create t = 0;
  ls_close :
    count is_close t =
    if (captured (stopflag s) (polls s) n <? n)%nat then 1 else 0;
  ls_end_series :
    count is_end_series t =
    if (captured (stopflag s) (polls s) n <? n)%nat then 1 else 0;
  ls_file_write : count is_file_write t = 0;
  ls_start : count is_start t = captured (stopflag s) (polls s) n;
  ls_add_images : count is_add_images t = captured (stopflag s) (polls s) n;
  ls_progress :
    progress_of t =
    progress_at s steps i <$> seq 0 (captured (stopflag s) (polls s) n);
}.

(** What [open_shutters] does to the two shutters under a configuration. *)
Definition open_events (shutterconfig : value) : list event :=
  if decide (shutterconfig = VStr "Both") then [ShutterLeft true; ShutterRight true]
  else if decide (shutterconfig = VStr "Left") then [ShutterLeft true; ShutterRight false]
  else if decide (shutterconfig = VStr "Right") then [ShutterRight true; ShutterLeft false]
  else [ShutterRight true; ShutterLeft true].

(** What [prepare_acquisition] does, in order. *)
Definition prepare_events (acq : Acquisition) : list event :=
  [ SigMoveAbsolute (startpoint acq) true;
    SigStateRequest "filter" (VStr (acq_filter acq)) true;
    SigStateRequest "zoom" (acq_zoom acq) true;
    LaserEnable (acq_laser acq);
    SigStateRequest "laser" (acq_laser acq) true;
    SigStateRequest "intensity" (acq_intensity acq) true;
    SigPrepareImageSeries acq;
    WfCreate;
    WfWrite;
    FileWrite (metadata_path acq) ].

(** The bookkeeping of a run is the same in [s] and [s']. *)
Record same_run (s s' : Core) : Prop := {
  sr_stopflag : stopflag s' = stopflag s;
  sr_polls : polls s' = polls s;
  sr_image_count : image_count s' = image_count s;
  sr_acquisition_count : acquisition_count s' = acquisition_count s;
  sr_total_acquisition_count :
    total_acquisition_count s' = total_acquisition_count s;
  sr_total_image_count : total_image_count s' = total_image_count s;
}.

(** What the closing steps of an acquisition log after the per-plane
    loop left the stop flag at [flag]. *)
Definition closing_events (acq : Acquisition) (flag : bool) : list event :=
  [ShutterLeft false; ShutterRight false] ++
  (if flag then [] else [SigMoveAbsolute (startpoint acq) true; WfClose]) ++
  [SigEndImageSeries].

(** What one round of [run_acquisition_list] on [acq], started in [s],
    has done when it leaves [s'] after the events [t]. *)
Record acquire_summary (acq : Acquisition) (s s' : Core) (t : list event) : Prop := {
  as_trace : trace s' = trace s ++ t;
  as_image_count :
    image_count s' =
    image_count s + captured (stopflag s) (polls s) (planes acq);
  as_polls :
    polls s' = polls s + captured (stopflag s) (polls s) (planes acq);
  as_stopflag :
    stopflag s' = flag_after (stopflag s) (polls s) (planes acq);
  as_acquisition_count : acquisition_count s' = acquisition_count s + 1;
  as_total_acquisition_count :
    total_acquisition_count s' = total_acquisition_count s;
  as_total_image_count : total_image_count s' = total_image_count s;
  as_shutter_left : shutter_left s' = false;
  as_shutter_right : shutter_right s' = false;
  as_shutterstate : st_shutterstate (state s') = false;
  as_idle : keeps_state -> stopped_idle s -> stopped_idle s';
  as_create : count is_create t = 1;
  as_close :
    count is_close t =
    (if (captured (stopflag s) (polls s) (planes acq) <? planes acq)%nat
     then 1 else 0) +
    (if flag_after (stopflag s) (polls s) (planes acq) then 0 else 1);
  as_end_series :
    count is_end_series t =
    (if (captured (stopflag s) (polls s) (planes acq) <? planes acq)%nat
     then 1 else 0) + 1;
  as_file_write : count is_file_write t = 1;
  as_add_images :
    count is_add_images t = captured (stopflag s) (polls s) (planes acq);
  as_progress :
    progress_of t =
    progress_at s (planes acq) 0 <$>
      seq 0 (captured (stopflag s) (polls s) (planes acq));
}.

(** What [run_acquisition_list] on [l], started in [s], has done when
    it leaves [s'] after the events [t]. *)
Record list_summary (l : list Acquisition) (s s' : Core) (t : list event) : Prop := {
  rs_trace : trace s' = trace s ++ t;
  rs_image_count :
    image_count s' =
    image_count s + captured (stopflag s) (polls s) (get_image_count l);
  rs_polls :
    polls s' = polls s + captured (stopflag s) (polls s) (get_image_count l);
  rs_stopflag :
    stopflag s' = flag_after (stopflag s) (polls s) (get_image_count l);
  rs_acquisition_count : acquisition_count s' = acquisition_count s + length l;
  rs_total_acquisition_count :
    total_acquisition_count s' = total_acquisition_count s;
  rs_total_image_count : total_image_count s' = total_image_count s;
  rs_shutters :
    l <> [] ->
    shutter_left s' = false /\ shutter_right s' = false /\
    st_shutterstate (state s') = false;
  rs_idle : keeps_state -> stopped_idle s -> stopped_idle s';
  rs_add_images :
    count is_add_images t =
    captured (stopflag s) (polls s) (get_image_count l);
  rs_counters :
    Progress.image_counter <$> progress_of t =
    seq (image_count s + 1)
      (captured (stopflag s) (polls s) (get_image_count l));
  rs_totals :
    Forall (fun r => Progress.total_image_count r = total_image_count s)
      (progress_of t);
  rs_create : count is_create t = length l;
  rs_file_write : count is_file_write t = length l;
}.

(** The state in which [start] enters [run_acquisition_list]: the stop
    flag cleared, the GUI told, the counters of
    [prepare_acquisition_list] set. *)
Definition list_entry (acq_list : list Acquisition) (s : Core) : Core :=
  with_total_image_count (get_image_count acq_list)
    (with_total_acquisition_count (length acq_list)
       (with_acquisition_count 0
          (with_image_count 0
             (log (SigUpdateGui true) (with_stopflag false s))))).

(** What [start] does after the list has run. *)
Definition list_exit (acq_list : list Acquisition) (s : Core) : Core :=
  log (SigUpdateGui false)
    (log SigFinished
       (if stopflag s then s
        else log (SigMoveAbsolute (list_startpoint acq_list) false) s)).

(** The per-plane loop of [n] iterations, entered with the stop flag
    [flag] and [p] polls made, finds the flag set at the head of one of its
    iterations: it was set on entry, or one of the polls before the last
    iteration sets it. *)
Definition stop_seen (flag : bool) (p n : nat) : bool :=
  match n with
  | 0 => false
  | S m => flag || existsb pending (seq p m)
  end.

(** What the per-plane loop logs when it is entered with the stop flag
    set. *)
Definition break_events (acq : Acquisition) : list event :=
  match planes acq with
  | 0 => []
  | S _ => [WfClose; SigEndImageSeries]
  end.

(** What one round of [run_acquisition_list] logs when it is entered with
    the stop flag set and opens the shutters under [shutterconfig]. *)
Definition stopped_round (acq : Acquisition) (shutterconfig : value) : list event :=
  prepare_events acq ++ open_events shutterconfig ++ break_events acq ++
  closing_events acq true.

(** The state in which [execute_script] hands the script to [exec]. *)
Definition script_entry (s : Core) : Core :=
  with_state (st_with_state "running_script") (log (SigUpdateGui true) s).

(** The requests of [visual_mode] for the two ETL amplitudes are stored
    under their keys, and the one for the right amplitude leaves the left
    one alone. *)
Definition stores_etl_amplitudes : Prop :=
  (forall v st,
     getp (on_state_request "etl_l_amplitude" v false st) "etl_l_amplitude" = v) /\
  (forall v st,
     getp (on_state_request "etl_r_amplitude" v false st) "etl_r_amplitude" = v) /\
  (forall v st,
     getp (on_state_request "etl_r_amplitude" v false st) "etl_l_amplitude" =
     getp st "etl_l_amplitude").

(** What one pass of the loop of [lightsheet_alignment_mode] logs before
    it polls. *)
Definition alignment_pass : list event :=
  [ ShutterLeft true;
    WfCreate; WfWrite; WfStart; WfRun; WfStop; WfClose;
    ShutterLeft false;
    ShutterRight true;
    WfCreate; WfWrite; WfStart; WfRun; WfStop; WfClose;
    ShutterRight false ].

(** Logging a list of events in order. *)
Definition log_all (es : list event) (s : Core) : Core :=
  foldl (fun s e => log e s) s es.

(** The common shape of the loops of [live] and [visual_mode]: while the
    stop flag is clear, capture, poll, open the shutters again. *)
Fixpoint poll_loop (capture : cmd) (fuel : nat) : cmd :=
  fun s =>
    if stopflag s then Done s
    else match fuel with
         | 0 => Unfinished
         | S fuel' =>
             (capture ;;
              via_global "QtWidgets" processEvents ;;
              open_shutters ;;
              poll_loop capture fuel') s
         end.

(** A trace observation that ignores what polling, a stop request and the
    shutters log. *)
Definition blind_to_polling (p : event -> bool) : Prop :=
  p ProcessEvents = false /\
  p SigFinished = false /\
  (forall b, p (SigUpdateGui b) = false) /\
  (forall key v w, p (SigStateRequest key v w) = false) /\
  (forall b, p (ShutterLeft b) = false) /\
  (forall b, p (ShutterRight b) = false).

(** The progress records of a list run to completion: acquisition [i]
    (counted from 0) of [total_acqs], entered with [done] images taken,
    reports its planes 0, 1, ... with the image counter running on from
    [done + 1]. *)
Fixpoint progress_stream (total_acqs total_images i done : nat)
    (acq_list : list Acquisition) : list Progress.t :=
  match acq_list with
  | [] => []
  | acq :: rest =>
      ((fun j =>
          {| Progress.current_acq := i;
             Progress.total_acqs := total_acqs;
             Progress.current_image_in_acq := j;
             Progress.images_in_acq := planes acq;
             Progress.total_image_count := total_images;
             Progress.image_counter := done + 1 + j |}) <$> seq 0 (planes acq)) ++
      progress_stream total_acqs total_images (S i) (done + planes acq) rest
  end.

(** What capturing plane [j] logs when no stop request is found, for a
    per-plane loop that stood in [s] at index [i]. *)
Definition plane_events (acq : Acquisition) (s : Core) (steps i j : nat) : list event :=
  [ WfStart; WfRun; WfStop; SigAddImages; ProcessEvents;
    SigMoveRelative (delta_z acq) true;
    SigProgress (progress_at s steps i j) ].

(** A stage move that does not wait for completion. *)
Definition is_async_move (e : event) : bool :=
  match e with
  | SigMoveAbsolute _ false | SigMoveRelative _ false => true
  | _ => false
  end.

(** The six mode names [set_state] knows. *)
Definition mode_names : list value :=
  [ VStr "live"; VStr "run_selected_acquisition"; VStr "run_acquisition_list";
    VStr "idle"; VStr "lightsheet_alignment_mode"; VStr "visual_mode" ].

(** An item of a request the engine has no use for: a key that is neither
    served nor forwarded, or the key 'state' with a value that names no
    mode. *)
Definition ignored_request (item : string * value) : Prop :=
  ((item.1 ∉ engine_keys) /\ (item.1 ∉ waveform_keys)) \/
  (item.1 = "state" /\ (item.2 ∉ mode_names)).

(** No request of any kind overwrites the key 'state', or the key
    'acq_list'. *)
Definition never_touches_state : Prop :=
  forall key v w st, st_state (on_state_request key v w st) = st_state st.

Definition never_touches_acq_list : Prop :=
  forall key v w st, st_acq_list (on_state_request key v w st) = st_acq_list st.

(** ** Reading a metadata record back *)

(** What a reader of the sidecar file finds on one line: an entry
    [[key] text], a blank line, or something that is neither. *)
Inductive record_line : Type :=
  | Entry (key text : string)
  | BlankLine
  | Unreadable.

(** The text up to the first ['] '] and the text after it. *)
Fixpoint split_key (line : string) : option (string * string) :=
  match line with
  | EmptyString => None
  | String c rest =>
      match rest with
      | EmptyString => None
      | String c' text =>
          if Ascii.eqb c "]"%char && Ascii.eqb c' " "%char
          then Some (EmptyString, text)
          else prod_map (String c) id <$> split_key rest
      end
  end.

(** A key that holds no [']']. *)
Fixpoint no_bracket (key : string) : bool :=
  match key with
  | EmptyString => true
  | String c key' => negb (Ascii.eqb c "]"%char) && no_bracket key'
  end.

(** A text without the line break that ends it. *)
Fixpoint strip_nl (text : string) : option string :=
  match text with
  | EmptyString => None
  | String c EmptyString =>
      if Ascii.eqb c "010"%char then Some EmptyString else None
  | String c rest => String c <$> strip_nl rest
  end.

Definition read_line (line : string) : record_line :=
  match line with
  | EmptyString => Unreadable
  | String c rest =>
      if Ascii.eqb c "["%char then
        match split_key rest with
        | Some (key, text) => from_option (Entry key) Unreadable (strip_nl text)
        | None => Unreadable
        end
      else
        match rest with
        | EmptyString => if Ascii.eqb c "010"%char then BlankLine else Unreadable
        | String _ _ => Unreadable
        end
  end.

(** The record of an acquisition as its reader expects it, for the values
    of the acquisition and of the shared state [st]: every value in the
    text form of [str], section titles as entries without a value, a blank
    line after each section. *)
Definition record_layout (acq : Acquisition) (st : SharedState) : list record_line :=
  [ Entry "Metadata for file" (acq_folder acq +:+ acq_filename acq);
    Entry "z_stepsize" (py_str (acq_z_step acq));
    BlankLine;
    Entry "CFG" "";
    Entry "Laser" (py_str (acq_laser acq));
    Entry "Intensity (%)" (py_str (acq_intensity acq));
    Entry "Zoom" (py_str (acq_zoom acq));
    Entry "Pixelsize in um" (py_str (getp st "pixelsize"));
    Entry "Filter" (acq_filter acq);
    Entry "Shutter" (py_str (acq_shutter acq));
    BlankLine;
    Entry "POSTION" "";
    Entry "x_pos" (py_str (acq_x_pos acq));
    Entry "y_pos" (py_str (acq_y_pos acq));
    Entry "f_pos" (py_str (acq_f_pos acq));
    Entry "z_start" (py_str (acq_z_start acq));
    Entry "z_end" (py_str (acq_z_end acq));
    Entry "z_stepsize" (py_str (acq_z_step acq));
    Entry "z_planes" (pretty (Z.of_nat (planes acq)));
    BlankLine;
    Entry "ETL PARAMETERS" "";
    Entry "ETL CFG File" (py_str (getp st "ETL_cfg_file"));
    Entry "etl_l_offset" (py_str (getp st "etl_l_offset"));
    Entry "etl_l_amplitude" (py_str (getp st "etl_l_amplitude"));
    Entry "etl_r_offset" (py_str (getp st "etl_r_offset"));
    Entry "etl_r_amplitude" (py_str (getp st "etl_r_amplitude"));
    BlankLine;
    Entry "GALVO PARAMETERS" "";
    Entry "galvo_l_frequency" (py_str (getp st "galvo_l_frequency"));
    Entry "galvo_l_amplitude" (py_str (getp st "galvo_l_amplitude"));
    Entry "galvo_l_offset" (py_str (getp st "galvo_l_offset"));
    Entry "galvo_r_amplitude" (py_str (getp st "galvo_r_amplitude"));
    Entry "galvo_r_offset" (py_str (getp st "galvo_r_offset"));
    BlankLine;
    Entry "CAMERA PARAMETERS" "";
    Entry "camera_exposure" (py_str (getp st "camera_exposure_time"));
    Entry "camera_line_interval" (py_str (getp st "camera_line_interval")) ].

(** The shared state in effect when the record of [acq] is written, for an
    acquisition entered with the shared state [st]: the shutter
    configuration of the acquisition stored, then its filter, zoom, laser
    and intensity requests served, each waited for. *)
Definition prepared_state (acq : Acquisition) (st : SharedState) : SharedState :=
  on_state_request "intensity" (acq_intensity acq) true
    (on_state_request "laser" (acq_laser acq) true
       (on_state_request "zoom" (acq_zoom acq) true
          (on_state_request "filter" (VStr (acq_filter acq)) true
             (st_with_shutterconfig (acq_shutter acq) st)))).

(** * Properties *)

(** ** Traces *)

Lemma count_app p t1 t2 : count p (t1 ++ t2) = count p t1 + count p t2.
Proof. induction t1 as [|e t1 IH]; simpl; [done | rewrite IH; lia]. Qed.

Lemma progress_of_app t1 t2 :
  progress_of (t1 ++ t2) = progress_of t1 ++ progress_of t2.
Proof.
  induction t1 as [|e t1 IH]; simpl; [done |].
  destruct e; simpl; by rewrite ?IH.
Qed.

(** ** Shutters *)

(** C8. For every shutter configuration other than ['Both'], ['Left'] and
    ['Right'], [open_shutters] opens the left and the right shutter and
    records [shutterstate = True]. *)
Theorem open_shutters_fallback (s : Core) :
  st_shutterconfig (state s) <> VStr "Both" ->
  st_shutterconfig (state s) <> VStr "Left" ->
  st_shutterconfig (state s) <> VStr "Right" ->
  exists s',
    open_shutters s = Done s' /\
    shutter_left s' = true /\
    shutter_right s' = true /\
    st_shutterstate (state s') = true.
Proof.
  intros HB HL HR. unfold open_shutters.
  repeat case_decide; try contradiction.
  eexists. split; [reflexivity |]. by cbn.
Qed.

(** ** The queue skeleton *)

Lemma captured_stopped p n : captured true p n = 0.
Proof. by destruct n. Qed.

Lemma flag_after_stopped p n : flag_after true p n = true.
Proof. by destruct n. Qed.

Lemma captured_le flag p n : captured flag p n <= n.
Proof.
  revert flag p. induction n as [|n IH]; intros flag p; simpl; [lia |].
  destruct flag; [lia |]. specialize (IH (pending p) (S p)). lia.
Qed.

Lemma captured_app flag p n m :
  captured flag p (n + m) =
  captured flag p n +
  captured (flag_after flag p n) (p + captured flag p n) m.
Proof.
  revert flag p. induction n as [|n IH]; intros flag p; simpl.
  - by rewrite Nat.add_0_r.
  - destruct flag.
    + by rewrite captured_stopped.
    + rewrite IH.
      by replace (p + S (captured (pending p) (S p) n))
        with (S p + captured (pending p) (S p) n) by lia.
Qed.

Lemma flag_after_app flag p n m :
  flag_after flag p (n + m) =
  flag_after (flag_after flag p n) (p + captured flag p n) m.
Proof.
  revert flag p. induction n as [|n IH]; intros flag p; simpl.
  - by rewrite Nat.add_0_r.
  - destruct flag.
    + by rewrite flag_after_stopped.
    + rewrite IH.
      by replace (p + S (captured (pending p) (S p) n))
        with (S p + captured (pending p) (S p) n) by lia.
Qed.

Lemma captured_quiet p n :
  (forall j, j < n -> pending (p + j) = false) ->
  captured false p n = n /\ flag_after false p n = false.
Proof.
  revert p. induction n as [|n IH]; intros p Hq; simpl; [done |].
  assert (Hp : pending p = false).
  { rewrite <- (Nat.add_0_r p). apply Hq. lia. }
  rewrite Hp. destruct (IH (S p)) as [-> ->]; [| done].
  intros j Hj. replace (S p + j) with (p + S j) by lia. apply Hq. lia.
Qed.

Lemma captured_first_stop p n k :
  first_stop p k -> k < n ->
  captured false p n = S k /\ flag_after false p n = true.
Proof.
  revert p n. induction k as [|k IH]; intros p n [Hp Hq] Hk.
  - destruct n as [|n]; [lia |]. simpl.
    rewrite Nat.add_0_r in Hp. rewrite Hp.
    by rewrite captured_stopped, flag_after_stopped.
  - destruct n as [|n]; [lia |]. simpl.
    assert (Hp0 : pending p = false).
    { rewrite <- (Nat.add_0_r p). apply Hq. lia. }
    rewrite Hp0. destruct (IH (S p) n) as [-> ->]; [| lia | done].
    split.
    + by replace (S p + k) with (p + S k) by lia.
    + intros j Hj. replace (S p + j) with (p + S j) by lia. apply Hq. lia.
Qed.

(** ** Name resolution *)

Lemma via_global_QtWidgets c : via_global "QtWidgets" c = c.
Proof.
  unfold via_global. rewrite bool_decide_eq_true_2; [done |].
  unfold module_globals. set_solver.
Qed.

Lemma via_global_QApplication c s :
  via_global "QApplication" c s = Raised (NameError "QApplication") s.
Proof.
  unfold via_global.
  by replace (bool_decide ("QApplication" ∈ module_globals)) with false
    by (by vm_compute).
Qed.

(** ** The per-plane loop *)

(** Reading a field of a state built by the setters. *)
Ltac fields :=
  cbn [state stopflag shutter_left shutter_right image_count
       acquisition_count total_acquisition_count total_image_count polls
       files trace log with_state with_stopflag with_shutter_left
       with_shutter_right with_image_count with_acquisition_count
       with_total_acquisition_count with_total_image_count with_polls
       with_files st_state st_shutterconfig st_shutterstate st_acq_list
       st_selected_row st_params st_with_state st_with_shutterconfig
       st_with_shutterstate negb].

(** The trace of a computed state is the old trace followed by what was
    logged. *)
Ltac trace_step :=
  cbn; rewrite <- ?app_assoc;
  first [ reflexivity | symmetry; apply app_nil_r ].

Ltac field_step :=
  cbn; unfold progress_at; rewrite ?Nat.add_0_r; cbn;
  first [ done | lia | by repeat f_equal; lia ].

Lemma capture_plane_summary acq steps i s :
  stopflag s = false ->
  exists s' t,
    capture_plane acq steps i s = Done s' /\
    loop_summary steps i 1 s s' t.
Proof.
  intros Hflag. unfold capture_plane. rewrite via_global_QtWidgets.
  unfold processEvents, seq_cmd at 1 2 3 4. cbn.
  destruct (pending (polls s)) eqn:Hp; cbn;
    (eexists _, _; split; [reflexivity |]);
    (split; [trace_step | ..]); cbn; rewrite ?Hflag, ?Hp; field_step.
Qed.

Lemma progress_at_shift s s1 steps i j :
  acquisition_count s1 = acquisition_count s ->
  total_acquisition_count s1 = total_acquisition_count s ->
  total_image_count s1 = total_image_count s ->
  image_count s1 = image_count s + 1 ->
  progress_at s1 steps (S i) j = progress_at s steps i (S j).
Proof.
  intros Ha Hta Hti Hi. unfold progress_at.
  rewrite Ha, Hta, Hti, Hi. f_equal; lia.
Qed.

Lemma plane_loop_summary acq steps n :
  forall i s,
  exists s' t,
    plane_loop acq steps i n s = Done s' /\
    loop_summary steps i n s s' t.
Proof.
  induction n as [|n IH]; intros i s.
  - exists s, []. split; [done |]. split; try field_step. trace_step.
  - simpl plane_loop. destruct (stopflag s) eqn:Hflag.
    + eexists _, _. split; [reflexivity |].
      split; [trace_step | ..]; cbn; rewrite ?Hflag; field_step.
    + destruct (capture_plane_summary acq steps i s Hflag)
        as (s1 & t1 & Hrun1 & H1).
      destruct (IH (S i) s1) as (s' & t2 & Hrun2 & H2).
      exists s', (t1 ++ t2). unfold seq_cmd. rewrite Hrun1. split; [done |].
      destruct H1, H2.
      rewrite Hflag in *.
      change (captured false (polls s) 1) with 1 in *.
      change (flag_after false (polls s) 1) with (pending (polls s)) in *.
      rewrite ls_stopflag0, ls_polls0, Nat.add_1_r in *.
      set (d := captured (pending (polls s)) (S (polls s)) n) in *.
      split; rewrite ?Hflag; cbn [captured flag_after]; fold d;
        rewrite ?count_app, ?progress_of_app; try congruence; try lia.
      * by rewrite ls_trace1, ls_trace0, app_assoc.
      * auto.
      * by rewrite ls_close0, ls_close1.
      * by rewrite ls_end_series0, ls_end_series1.
      * rewrite ls_progress0, ls_progress1. cbn. f_equal.
        rewrite <- fmap_S_seq, <- list_fmap_compose.
        apply list_fmap_ext. intros _ j _. cbn.
        by apply progress_at_shift; [congruence .. | lia].
Qed.

(** ** One acquisition *)

Lemma prepare_acquisition_spec acq s :
  exists s_p,
    prepare_acquisition acq s = Done s_p /\
    trace s_p = trace s ++ prepare_events acq /\
    files s_p =
      <[metadata_path acq := metadata_lines acq (state s_p)]> (files s) /\
    same_run s s_p /\
    shutter_left s_p = shutter_left s /\
    shutter_right s_p = shutter_right s /\
    (keeps_state -> st_state (state s_p) = st_state (state s)).
Proof.
  eexists. split; [reflexivity |]. cbn.
  split; [by rewrite <- !app_assoc |].
  split; [done |]. split; [by split |]. split; [done |]. split; [done |].
  intros Hk. by rewrite !Hk.
Qed.

Lemma open_shutters_spec s :
  exists s_o,
    open_shutters s = Done s_o /\
    trace s_o = trace s ++ open_events (st_shutterconfig (state s)) /\
    files s_o = files s /\
    same_run s s_o /\
    st_state (state s_o) = st_state (state s).
Proof.
  unfold open_shutters, open_events.
  repeat case_decide; (eexists; split; [reflexivity |]); cbn;
    (split; [by rewrite <- !app_assoc |]); by repeat split.
Qed.

Lemma count_open_events p shutterconfig :
  (forall b, p (ShutterLeft b) = false) ->
  (forall b, p (ShutterRight b) = false) ->
  count p (open_events shutterconfig) = 0.
Proof.
  intros Hl Hr. unfold open_events.
  repeat case_decide; cbn; by rewrite !Hl, !Hr.
Qed.

Lemma progress_of_open_events shutterconfig :
  progress_of (open_events shutterconfig) = [].
Proof. unfold open_events. by repeat case_decide. Qed.

(** The steps of one acquisition, with the states between them. *)
Lemma acquire_steps acq s :
  exists s_p s_o s_l t_l s',
    prepare_acquisition acq s = Done s_p /\
    open_shutters s_p = Done s_o /\
    plane_loop acq (planes acq) 0 (planes acq) s_o = Done s_l /\
    loop_summary (planes acq) 0 (planes acq) s_o s_l t_l /\
    acquire acq s = Done s' /\
    trace s' =
      trace s ++ prepare_events acq ++
      open_events (st_shutterconfig (state s_p)) ++ t_l ++
      closing_events acq (stopflag s_l) /\
    files s' =
      <[metadata_path acq := metadata_lines acq (state s_p)]> (files s) /\
    acquire_summary acq s s'
      (prepare_events acq ++ open_events (st_shutterconfig (state s_p)) ++
       t_l ++ closing_events acq (stopflag s_l)).
Proof.
  destruct (prepare_acquisition_spec acq s)
    as (s_p & Hp & Htp & Hfp & Hrp & Hlp & Hrrp & Hkp).
  destruct (open_shutters_spec s_p) as (s_o & Ho & Hto & Hfo & Hro & Hso).
  destruct (plane_loop_summary acq (planes acq) (planes acq) 0 s_o)
    as (s_l & t_l & Hl & Hsum).
  assert (Hrun : exists s',
    acquire acq s = Done s' /\
    trace s' = trace s_l ++ closing_events acq (stopflag s_l) /\
    files s' = files s_l /\
    stopflag s' = stopflag s_l /\
    polls s' = polls s_l /\
    image_count s' = image_count s_l /\
    total_acquisition_count s' = total_acquisition_count s_l /\
    total_image_count s' = total_image_count s_l /\
    acquisition_count s' = acquisition_count s_l + 1 /\
    shutter_left s' = false /\ shutter_right s' = false /\
    st_shutterstate (state s') = false /\
    st_state (state s') = st_state (state s_l)).
  { unfold acquire, run_acquisition, seq_cmd at 1 2.
    rewrite Hp. unfold seq_cmd at 1 2. rewrite Ho, Hl.
    unfold close_acquisition, closing_events. cbn.
    unfold seq_cmd at 1. fields.
    destruct (stopflag s_l) eqn:Hflag; cbn;
      (eexists; split; [reflexivity |]); cbn;
      (split; [by rewrite <- !app_assoc |]);
      repeat split; try done. }
  destruct Hrun as (s' & Hrun & Ht & Hf & Hflag & Hpolls & Hic & Htac & Htic &
                    Hac & Hsl & Hsr & Hss & Hst).
  destruct Hrp, Hro, Hsum.
  assert (Htrace : trace s' =
      trace s ++ prepare_events acq ++
      open_events (st_shutterconfig (state s_p)) ++ t_l ++
      closing_events acq (stopflag s_l)).
  { by rewrite Ht, ls_trace0, Hto, Htp, <- !app_assoc. }
  rewrite sr_stopflag1, sr_stopflag0, sr_polls1, sr_polls0 in *.
  exists s_p, s_o, s_l, t_l, s'.
  split; [done |]. split; [done |]. split; [done |].
  split.
  { split; rewrite ?sr_stopflag1, ?sr_stopflag0, ?sr_polls1, ?sr_polls0;
      try done. }
  split; [done |]. split; [done |].
  split; [congruence |].
  set (d := captured (stopflag s) (polls s) (planes acq)) in *.
  split; fold d; try congruence; try lia;
    rewrite ?count_app, ?progress_of_app, ?progress_of_open_events,
      ?count_open_events by done;
    unfold closing_events; rewrite ?count_app, ?progress_of_app.
  - intros Hk Hs Hf'. rewrite Hst. apply ls_idle0; [| congruence].
    intros Hfo'. rewrite Hso, (Hkp Hk). apply Hs. congruence.
  - rewrite ls_create0. by destruct (stopflag s_l).
  - rewrite ls_close0, <- ls_stopflag0. by destruct (stopflag s_l).
  - rewrite ls_end_series0. destruct (stopflag s_l); cbn; lia.
  - rewrite ls_file_write0. by destruct (stopflag s_l).
  - rewrite ls_add_images0. destruct (stopflag s_l); cbn; lia.
  - rewrite ls_progress0. destruct (stopflag s_l); cbn;
      rewrite app_nil_r; apply list_fmap_ext; intros _ j _;
      unfold progress_at; congruence.
Qed.

Lemma acquire_total acq s :
  exists s' t, acquire acq s = Done s' /\ acquire_summary acq s s' t.
Proof.
  destruct (acquire_steps acq s)
    as (s_p & s_o & s_l & t_l & s' & _ & _ & _ & _ & Hrun & _ & _ & H).
  by eexists _, _.
Qed.

(** ** The list of acquisitions *)

Lemma run_acquisition_list_app l1 l2 s :
  run_acquisition_list (l1 ++ l2) s =
  match run_acquisition_list l1 s with
  | Done s' => run_acquisition_list l2 s'
  | Raised e s' => Raised e s'
  | Unfinished => Unfinished
  end.
Proof.
  revert s. induction l1 as [|acq l1 IH]; intros s; [done |].
  cbn [app run_acquisition_list]. unfold seq_cmd.
  destruct (acquire acq s); auto.
Qed.

Lemma get_image_count_app l1 l2 :
  get_image_count (l1 ++ l2) = get_image_count l1 + get_image_count l2.
Proof.
  induction l1 as [|acq l1 IH]; [done |].
  unfold get_image_count in *. cbn. rewrite IH. lia.
Qed.

Lemma run_acquisition_list_summary l :
  forall s,
  exists s' t,
    run_acquisition_list l s = Done s' /\ list_summary l s s' t.
Proof.
  induction l as [|acq l IH]; intros s.
  - exists s, []. split; [done |].
    split; cbn; rewrite ?Nat.add_0_r, ?app_nil_r; try done.
  - destruct (acquire_total acq s) as (s1 & t1 & Hrun1 & H1).
    destruct (IH s1) as (s' & t2 & Hrun2 & H2).
    exists s', (t1 ++ t2). cbn [run_acquisition_list]. unfold seq_cmd.
    rewrite Hrun1. split; [done |].
    destruct H1, H2.
    rewrite as_stopflag0, as_polls0 in *.
    set (d1 := captured (stopflag s) (polls s) (planes acq)) in *.
    set (d2 := captured (flag_after (stopflag s) (polls s) (planes acq))
                 (polls s + d1) (get_image_count l)) in *.
    split;
      change (get_image_count (acq :: l))
        with (planes acq + get_image_count l);
      rewrite ?captured_app, ?flag_after_app; fold d1; fold d2;
      rewrite ?count_app, ?progress_of_app, ?fmap_app, ?length_cons;
      try congruence; try lia.
    + by rewrite rs_trace0, as_trace0, app_assoc.
    + intros _. destruct l as [|acq' l'].
      * cbn in Hrun2. by injection Hrun2 as <-.
      * by apply rs_shutters0.
    + auto.
    + rewrite as_progress0, rs_counters0, seq_app.
      f_equal; [| f_equal; lia].
      rewrite <- list_fmap_compose.
      transitivity (Nat.add (image_count s + 1) <$> seq 0 d1);
        [by apply list_fmap_ext |].
      rewrite fmap_add_seq. f_equal. lia.
    + apply Forall_app. split.
      * rewrite as_progress0. by apply Forall_fmap, Forall_true.
      * eapply Forall_impl; [exact rs_totals0 |]. cbn. congruence.
Qed.

(** ** A run of [start] *)

Lemma start_None s0 s1 :
  run_acquisition_list (st_acq_list (state s0))
    (list_entry (st_acq_list (state s0)) s0) = Done s1 ->
  start None s0 = Done (list_exit (st_acq_list (state s0)) s1).
Proof.
  intros Hrun. unfold start, list_exit. cbn. unfold seq_cmd at 1.
  fold (list_entry (st_acq_list (state s0)) s0).
  rewrite Hrun. unfold close_acquisition_list, seq_cmd.
  by destruct (stopflag s1).
Qed.

(** C2. When a list with plane counts p1..pN runs to completion without
    a stop request, every progress record carries the total sum of the
    pi, the records count the images 1, 2, ..., sum of the pi (one record
    per captured plane, none missing, none twice), and the last record's
    image counter is that sum. *)
Theorem progress_of_complete_run (s0 : Core) (acq_list : list Acquisition)
    (total : nat) :
  st_acq_list (state s0) = acq_list ->
  get_image_count acq_list = total ->
  (forall j, j < total -> pending (polls s0 + j) = false) ->
  exists s' t,
    start None s0 = Done s' /\
    trace s' = trace s0 ++ t /\
    stopflag s' = false /\
    Forall (fun r => Progress.total_image_count r = total) (progress_of t) /\
    Progress.image_counter <$> progress_of t = seq 1 total /\
    length (progress_of t) = total /\
    count is_add_images t = total /\
    (total <> 0 ->
     Progress.image_counter <$> last (progress_of t) = Some total).
Proof.
  intros <- <- Hquiet.
  set (acq_list := st_acq_list (state s0)) in *.
  set (total := get_image_count acq_list) in *.
  destruct (run_acquisition_list_summary acq_list (list_entry acq_list s0))
    as (s1 & t & Hrun & Hsum).
  destruct (captured_quiet (polls s0) total Hquiet) as [Hcap Hflag].
  destruct Hsum. cbn in rs_trace0, rs_stopflag0, rs_add_images0,
    rs_counters0, rs_totals0.
  fold acq_list total in rs_stopflag0, rs_add_images0, rs_counters0,
    rs_totals0.
  rewrite Hcap in *. rewrite Hflag in *.
  exists (list_exit acq_list s1), ([SigUpdateGui true] ++ t ++
    [SigMoveAbsolute (list_startpoint acq_list) false; SigFinished;
     SigUpdateGui false]).
  split; [by apply start_None |].
  split.
  { unfold list_exit. rewrite rs_stopflag0. cbn.
    by rewrite rs_trace0, <- !app_assoc. }
  split; [unfold list_exit; by rewrite rs_stopflag0 |].
  assert (Hp : progress_of ([SigUpdateGui true] ++ t ++
    [SigMoveAbsolute (list_startpoint acq_list) false; SigFinished;
     SigUpdateGui false]) = progress_of t).
  { rewrite !progress_of_app. cbn. by rewrite app_nil_r. }
  rewrite Hp.
  assert (Hlen : length (progress_of t) = total).
  { rewrite <- (length_fmap Progress.image_counter), rs_counters0.
    apply length_seq. }
  split; [done |]. split; [done |]. split; [done |].
  split.
  { rewrite !count_app. cbn. lia. }
  intros Hne. rewrite <- fmap_last, rs_counters0.
  destruct total as [|n]; [done |].
  rewrite seq_S, last_snoc. f_equal; lia.
Qed.

Lemma captured_upto_stop p n m :
  first_stop p n -> m <= S n -> captured false p m = m.
Proof.
  intros Hstop Hm. destruct (decide (m <= n)) as [Hle | Hgt].
  - apply captured_quiet. intros j Hj. apply Hstop. lia.
  - replace m with (S n) by lia.
    by destruct (captured_first_stop p (S n) n) as [-> _]; [| lia |].
Qed.

Lemma list_exit_fields acq_list s :
  image_count (list_exit acq_list s) = image_count s /\
  shutter_left (list_exit acq_list s) = shutter_left s /\
  shutter_right (list_exit acq_list s) = shutter_right s /\
  state (list_exit acq_list s) = state s /\
  stopflag (list_exit acq_list s) = stopflag s.
Proof.
  unfold list_exit. destruct (stopflag s) eqn:Hflag; cbn; by rewrite ?Hflag.
Qed.

(** C1. When the stop flag is set while acquisition i of the list stands
    at plane k (k below its plane count), then, by the time acquisition i
    is left, the image counter stands at the plane counts of the earlier
    acquisitions plus k, both shutters are closed, the task buffers created
    for acquisition i are closed and the end of its image series is
    signalled, and the state is 'idle'; the counter, the shutters and the
    state are the same when [start] returns. *)
Theorem stop_during_acquisition (l1 l2 : list Acquisition)
    (acq : Acquisition) (k n : nat) (s0 : Core) :
  st_acq_list (state s0) = l1 ++ acq :: l2 ->
  k < planes acq ->
  get_image_count l1 + k = S n ->
  first_stop (polls s0) n ->
  keeps_state ->
  exists s_i s_c rest s_end,
    run_acquisition_list l1 (list_entry (l1 ++ acq :: l2) s0) = Done s_i /\
    acquire acq s_i = Done s_c /\
    trace s_c = trace s_i ++ prepare_events acq ++ rest /\
    image_count s_c = get_image_count l1 + k /\
    shutter_left s_c = false /\
    shutter_right s_c = false /\
    st_shutterstate (state s_c) = false /\
    count is_create rest = 0 /\
    count is_close rest = 1 /\
    count is_end_series rest = 2 /\
    st_state (state s_c) = "idle" /\
    start None s0 = Done s_end /\
    image_count s_end = get_image_count l1 + k /\
    shutter_left s_end = false /\
    shutter_right s_end = false /\
    st_shutterstate (state s_end) = false /\
    st_state (state s_end) = "idle".
Proof.
  intros Hlist Hk Hn Hstop Hkeeps.
  set (l := l1 ++ acq :: l2) in *.
  set (s_e := list_entry l s0).
  assert (Hidle_e : stopped_idle s_e) by done.
  destruct (run_acquisition_list_summary l1 s_e) as (s_i & t1 & Hrun1 & H1).
  destruct (acquire_steps acq s_i)
    as (s_p & s_o & s_l & t_l & s_c & _ & _ & _ & _ & Hacq & Htc & _ & Ha).
  destruct (run_acquisition_list_summary l s_e) as (s_2 & t & Hrun & H).
  destruct H1, Ha, H.
  change (stopflag s_e) with false in *.
  change (polls s_e) with (polls s0) in *.
  change (image_count s_e) with 0 in *.
  assert (Hl : get_image_count l =
               get_image_count l1 + (planes acq + get_image_count l2)).
  { unfold l. by rewrite get_image_count_app. }
  assert (Hc1 : captured false (polls s0) (get_image_count l1) =
                get_image_count l1).
  { apply (captured_upto_stop _ n); [done | lia]. }
  destruct (captured_first_stop (polls s0)
              (get_image_count l1 + planes acq) n Hstop) as [Hc2 Hf2]; [lia |].
  destruct (captured_first_stop (polls s0) (get_image_count l) n Hstop)
    as [Hc Hf]; [lia |].
  rewrite captured_app, Hc1 in Hc2. rewrite flag_after_app, Hc1 in Hf2.
  rewrite rs_stopflag0, rs_polls0, Hc1 in *.
  assert (Hd : captured (flag_after false (polls s0) (get_image_count l1))
                 (polls s0 + get_image_count l1) (planes acq) = k) by lia.
  rewrite Hd, Hf2 in *. rewrite Hc, Hf in *.
  destruct (list_exit_fields l s_2) as (Hei & Hel & Her & Hes & Hef).
  destruct rs_shutters1 as (Hsl & Hsr & Hss); [unfold l; by destruct l1 |].
  exists s_i, s_c, (open_events (st_shutterconfig (state s_p)) ++ t_l ++
                    closing_events acq (stopflag s_l)), (list_exit l s_2).
  rewrite count_app in as_create0, as_close0, as_end_series0.
  change (count is_create (prepare_events acq)) with 1 in as_create0.
  change (count is_close (prepare_events acq)) with 0 in as_close0.
  change (count is_end_series (prepare_events acq)) with 0 in as_end_series0.
  apply Nat.ltb_lt in Hk as Hk'. rewrite Hk' in *.
  repeat split; try done; try lia.
  - by apply (as_idle0 Hkeeps (rs_idle0 Hkeeps Hidle_e)).
  - pose proof (start_None s0 s_2) as Hstart. rewrite Hlist in Hstart.
    by apply Hstart.
  - congruence.
  - congruence.
  - congruence.
  - rewrite Hes. by apply (rs_idle1 Hkeeps Hidle_e).
Qed.

(** ** Signals at the end of a series *)

Lemma captured_below flag p n :
  (captured flag p n <? n)%nat = stop_seen flag p n.
Proof.
  revert flag p. induction n as [|n IH]; intros flag p; [done |].
  cbn [captured]. destruct flag; [done |].
  change (S (captured (pending p) (S p) n) <? S n)%nat
    with (captured (pending p) (S p) n <? n)%nat.
  rewrite IH. by destruct n.
Qed.

(** C10. An acquisition whose per-plane loop finds the stop flag set sends
    the end-of-series signal twice (at the break, and again when the
    acquisition is closed); every other acquisition sends it once. *)
Theorem end_of_series_signals (acq : Acquisition) (s : Core) :
  exists s' t,
    acquire acq s = Done s' /\
    trace s' = trace s ++ t /\
    count is_end_series t =
      if stop_seen (stopflag s) (polls s) (planes acq) then 2 else 1.
Proof.
  destruct (acquire_total acq s) as (s' & t & Hrun & Hsum).
  exists s', t. destruct Hsum. split; [done |]. split; [done |].
  rewrite as_end_series0, captured_below.
  by destruct (stop_seen _ _ _).
Qed.

(** ** A stopped list *)

Lemma plane_loop_stopped acq steps i n s :
  stopflag s = true ->
  plane_loop acq steps i n s =
  Done (match n with
        | 0 => s
        | S _ => log SigEndImageSeries (log WfClose s)
        end).
Proof. intros Hflag. destruct n; [done |]. cbn. by rewrite Hflag. Qed.

Lemma acquire_stopped acq s :
  stopflag s = true ->
  exists s' shutterconfig,
    acquire acq s = Done s' /\
    stopflag s' = true /\
    trace s' = trace s ++ stopped_round acq shutterconfig.
Proof.
  intros Hflag.
  destruct (acquire_steps acq s)
    as (s_p & s_o & s_l & t_l & s' & Hp & Ho & Hl & Hsum & Hrun & Ht & _ & Ha).
  destruct (prepare_acquisition_spec acq s) as (s_p' & Hp' & _ & _ & [] & _).
  destruct (open_shutters_spec s_p) as (s_o' & Ho' & _ & _ & [] & _).
  assert (s_p' = s_p) as -> by congruence.
  assert (s_o' = s_o) as -> by congruence.
  assert (Hflag_o : stopflag s_o = true) by congruence.
  rewrite (plane_loop_stopped _ _ _ _ _ Hflag_o) in Hl.
  exists s', (st_shutterconfig (state s_p)).
  destruct Ha, Hsum.
  split; [done |]. split.
  { rewrite as_stopflag0, Hflag. apply flag_after_stopped. }
  assert (Hflag_l : stopflag s_l = true).
  { rewrite ls_stopflag0, Hflag_o. apply flag_after_stopped. }
  assert (Ht_l : t_l = break_events acq).
  { apply (app_inv_head (trace s_o)). rewrite <- ls_trace0.
    injection Hl as <-. unfold break_events. destruct (planes acq); cbn;
      [by rewrite app_nil_r | by rewrite <- app_assoc]. }
  by rewrite Ht, Hflag_l, Ht_l.
Qed.

(** C9. Once the stop flag is set, [run_acquisition_list] still goes through
    every remaining acquisition: for each one it runs the whole prepare step
    (the blocking move to the start point, the blocking filter, zoom, laser
    and intensity requests, new task buffers, the metadata file) and opens
    the shutters before the per-plane loop looks at the flag at plane 0; the
    list loop itself never looks at it. *)
Theorem stopped_list_still_prepares (rest : list Acquisition) (s : Core) :
  stopflag s = true ->
  exists s' rounds,
    run_acquisition_list rest s = Done s' /\
    stopflag s' = true /\
    trace s' = trace s ++ concat rounds /\
    Forall2
      (fun acq round =>
         exists shutterconfig, round = stopped_round acq shutterconfig)
      rest rounds.
Proof.
  revert s. induction rest as [|acq rest IH]; intros s Hflag.
  - exists s, []. split; [done |]. split; [done |].
    split; [by rewrite app_nil_r | constructor].
  - destruct (acquire_stopped acq s Hflag) as (s1 & cfg & Hrun1 & Hflag1 & Ht1).
    destruct (IH s1 Hflag1) as (s' & rounds & Hrun & Hflag' & Ht & Hall).
    exists s', (stopped_round acq cfg :: rounds).
    cbn [run_acquisition_list]. unfold seq_cmd. rewrite Hrun1.
    split; [done |]. split; [done |]. split.
    + cbn [concat]. by rewrite Ht, Ht1, app_assoc.
    + constructor; [by exists cfg | done].
Qed.

(** ** Metadata *)

Lemma write_metadata_state acq s s' :
  write_metadata acq s = Done s' -> state s' = state s.
Proof. by intros [= <-]. Qed.

Lemma strip_nl_app text : strip_nl (text +:+ nl) = Some text.
Proof.
  induction text as [|c text IH]; [done |].
  change (String c text +:+ nl) with (String c (text +:+ nl)).
  cbn [strip_nl]. rewrite IH. by destruct text.
Qed.

Lemma split_key_cons c c' text :
  split_key (String c (String c' text)) =
  if Ascii.eqb c "]"%char && Ascii.eqb c' " "%char
  then Some (EmptyString, text)
  else prod_map (String c) id <$> split_key (String c' text).
Proof. reflexivity. Qed.

Lemma split_key_app key text :
  no_bracket key = true ->
  split_key (key +:+ "] " +:+ text) = Some (key, text).
Proof.
  induction key as [|c key IH]; [done |].
  cbn [no_bracket]. intros [Hc Hkey]%andb_true_iff.
  change (String c key +:+ "] " +:+ text)
    with (String c (key +:+ "] " +:+ text)).
  specialize (IH Hkey). destruct (key +:+ "] " +:+ text) as [|c' rest] eqn:Hrest.
  { by destruct key. }
  rewrite split_key_cons. apply negb_true_iff in Hc. rewrite Hc. cbn [andb].
  by rewrite IH.
Qed.

(** A line written by [write_line] for a key reads back as that key with
    the text of the value, and the line it writes without a key as a blank
    line. *)
Lemma read_line_entry key v :
  key <> "" ->
  no_bracket key = true ->
  read_line (write_line key v) = Entry key (py_str v).
Proof.
  intros Hkey Hplain. unfold write_line. rewrite decide_True by done.
  change ("[" +:+ key +:+ "] " +:+ py_str v +:+ nl)
    with (String "[" (key +:+ "] " +:+ py_str v +:+ nl)).
  cbn [read_line]. change (Ascii.eqb "[" "[") with true. cbv iota.
  by rewrite split_key_app, strip_nl_app.
Qed.

Lemma read_line_blank v : read_line (write_line "" v) = BlankLine.
Proof. unfold write_line. by rewrite decide_False by (by intros []). Qed.

(** The lines of [write_metadata], read back one by one, are the record of
    the acquisition for the shared state they were computed from. *)
Lemma read_metadata_lines acq st :
  read_line <$> metadata_lines acq st = record_layout acq st.
Proof.
  unfold metadata_lines, record_layout. cbn [fmap list_fmap].
  rewrite !read_line_blank. rewrite !read_line_entry by done. reflexivity.
Qed.

Lemma prepare_acquisition_state acq s s_p :
  prepare_acquisition acq s = Done s_p ->
  state s_p = prepared_state acq (state s).
Proof.
  assert (Hp : exists s_p',
    prepare_acquisition acq s = Done s_p' /\
    state s_p' = prepared_state acq (state s)).
  { eexists. split; reflexivity. }
  destruct Hp as (s_p' & Hp & Hstate). rewrite Hp. by intros [= <-].
Qed.

(** C4. An acquisition writes its metadata file once: the write ends the
    prepare step, before any plane is captured. The shared state the record
    is computed from is the one in effect at that moment: the state the
    acquisition was entered with, after its shutter configuration was stored
    and its filter, zoom, laser and intensity requests were served. Read
    back line by line, the file carries under every key the text of the
    acquisition's value or of that state's value, and it still does when the
    acquisition is closed, whatever was changed in between. *)
Theorem metadata_written_once (acq : Acquisition) (s : Core) :
  exists s_w s_p s' post,
    prepare_acquisition acq s = write_metadata acq s_w /\
    write_metadata acq s_w = Done s_p /\
    trace s_p = trace s ++ prepare_events acq /\
    last (prepare_events acq) = Some (FileWrite (metadata_path acq)) /\
    count is_file_write (prepare_events acq) = 1 /\
    count is_start (prepare_events acq) = 0 /\
    count is_add_images (prepare_events acq) = 0 /\
    files s_p !! metadata_path acq = Some (metadata_lines acq (state s_w)) /\
    acquire acq s = Done s' /\
    trace s' = trace s_p ++ post /\
    count is_file_write post = 0 /\
    files s' !! metadata_path acq = Some (metadata_lines acq (state s_w)) /\
    state s_w = prepared_state acq (state s) /\
    read_line <$> metadata_lines acq (state s_w) =
      record_layout acq (prepared_state acq (state s)).
Proof.
  destruct (acquire_steps acq s)
    as (s_p & s_o & s_l & t_l & s' & Hp & Ho & Hl & Hsum & Hrun & Ht & Hf & Ha).
  destruct (prepare_acquisition_spec acq s) as (s_p' & Hp' & Htp & Hfp & _).
  assert (s_p' = s_p) as -> by congruence.
  assert (Hw : exists s_w,
    prepare_acquisition acq s = write_metadata acq s_w).
  { eexists. unfold prepare_acquisition. cbn -[write_metadata]. reflexivity. }
  destruct Hw as (s_w & Hw).
  assert (Hwp : write_metadata acq s_w = Done s_p) by congruence.
  pose proof (write_metadata_state acq s_w s_p Hwp) as Hst.
  pose proof (prepare_acquisition_state acq s s_p Hp) as Hprep.
  exists s_w, s_p, s', (open_events (st_shutterconfig (state s_p)) ++ t_l ++
                        closing_events acq (stopflag s_l)).
  destruct Ha. rewrite count_app in as_file_write0.
  change (count is_file_write (prepare_events acq)) with 1 in as_file_write0.
  repeat split; try done.
  - rewrite Hfp, <- Hst. apply lookup_insert_eq.
  - by rewrite Ht, Htp, <- app_assoc.
  - lia.
  - rewrite Hf, <- Hst. apply lookup_insert_eq.
  - by rewrite <- Hst.
  - rewrite <- Hst, Hprep. apply read_metadata_lines.
Qed.

(** ** Visual mode *)

Lemma seq_cmd_assoc (a b c : cmd) s : ((a ;; b) ;; c) s = (a ;; b ;; c) s.
Proof.
  unfold seq_cmd. destruct (a s) as [s1 | |]; [| done..].
  by destruct (b s1).
Qed.

Lemma visual_pass s :
  stopflag s = false ->
  exists s1,
    (snap_image_in_series ;;
     via_global "QtWidgets" processEvents ;;
     open_shutters) s = Done s1 /\
    polls s1 = S (polls s) /\
    stopflag s1 = pending (polls s).
Proof.
  intros Hflag. rewrite via_global_QtWidgets.
  unfold seq_cmd, processEvents. cbn.
  destruct (pending (polls s)) eqn:Hp; cbn;
    match goal with
    | |- context [open_shutters ?x] =>
        destruct (open_shutters_spec x) as (s1 & -> & _ & _ & [] & _)
    end; exists s1; cbn in *; rewrite ?Hflag in *; by repeat split.
Qed.

Lemma visual_loop_stops n :
  forall fuel s,
    pending (polls s + n) = true -> n < fuel ->
    exists s', visual_loop fuel s = Done s'.
Proof.
  induction n as [|n IH]; intros fuel s Hp Hfuel;
    (destruct fuel as [|fuel]; [lia |]); cbn [visual_loop];
    (destruct (stopflag s) eqn:Hflag; [by eexists |]);
    destruct (visual_pass s Hflag) as (s1 & Hrun & Hpolls & Hflag1);
    rewrite <- !seq_cmd_assoc; unfold seq_cmd at 1;
    rewrite seq_cmd_assoc, Hrun.
  - rewrite Nat.add_0_r in Hp. rewrite Hp in Hflag1.
    exists s1. destruct fuel; cbn; by rewrite Hflag1.
  - apply IH; [| lia]. rewrite Hpolls.
    by replace (S (polls s) + n) with (polls s + S n) by lia.
Qed.

(** C5. Whenever the stop request arrives ([n] polls after entry, for every
    [n], also at the first poll), [visual_mode] returns, and the left and
    right ETL amplitudes of the shared state are then what they were before
    entry. *)
Theorem visual_mode_restores_etl (s : Core) (n fuel : nat) :
  stores_etl_amplitudes ->
  pending (polls s + n) = true ->
  n < fuel ->
  exists s',
    visual_mode fuel s = Done s' /\
    getp (state s') "etl_l_amplitude" = getp (state s) "etl_l_amplitude" /\
    getp (state s') "etl_r_amplitude" = getp (state s) "etl_r_amplitude".
Proof.
  intros (Hl & Hr & Hrl) Hp Hfuel. unfold visual_mode.
  cbn. unfold seq_cmd at 1.
  match goal with
  | |- context [open_shutters ?x] =>
      destruct (open_shutters_spec x) as (s_o & -> & _ & _ & [] & _)
  end.
  destruct (visual_loop_stops n fuel s_o) as (s_l & Hloop); [| done |].
  { by rewrite sr_polls0. }
  unfold seq_cmd at 1. rewrite Hloop. cbn.
  eexists. split; [reflexivity |]. cbn. by rewrite Hr, Hrl, Hl.
Qed.

(** ** Alignment mode *)

Lemma seq_fail (p k : cmd) s :
  (via_global "QApplication" p ;; k) s = Raised (NameError "QApplication") s.
Proof. unfold seq_cmd. by rewrite via_global_QApplication. Qed.

Lemma seq_step f (k : cmd) s : (step f ;; k) s = k (f s).
Proof. reflexivity. Qed.

Lemma alignment_pass_raises (k : cmd) s :
  exists s',
    (shutter_left_open ;; snap_image ;; shutter_left_close ;;
     shutter_right_open ;; snap_image ;; shutter_right_close ;;
     via_global "QApplication" processEvents ;; k) s =
      Raised (NameError "QApplication") s' /\
    trace s' = trace s ++ alignment_pass /\
    polls s' = polls s /\
    state s' = state s.
Proof.
  unfold shutter_left_open, shutter_left_close, shutter_right_open,
    shutter_right_close, snap_image, emit.
  repeat (rewrite seq_step || rewrite seq_cmd_assoc).
  rewrite seq_fail.
  eexists. split; [reflexivity |]. cbn. by rewrite <- !app_assoc.
Qed.

(** C6. The loop of [lightsheet_alignment_mode] does one pass (left
    shutter open, capture, left shutter closed, right shutter open, capture,
    right shutter closed) and then fails at its poll: the name
    [QApplication] is not bound in the module, so a [NameError] leaves the
    loop and the mode, whatever the fuel and the queue. *)
Theorem alignment_mode_raises (fuel : nat) (s : Core) :
  exists s',
    lightsheet_alignment_mode (S fuel) s =
      Raised (NameError "QApplication") s' /\
    trace s' = trace s ++ alignment_pass /\
    polls s' = polls s /\
    state s' = state s.
Proof.
  unfold lightsheet_alignment_mode. rewrite seq_step.
  unfold seq_cmd at 1. cbn [alignment_loop stopflag with_stopflag].
  destruct (alignment_pass_raises (alignment_loop fuel) (with_stopflag false s))
    as (s' & -> & Ht & Hp & Hs).
  by exists s'.
Qed.

(** ** Scripts *)

(** C7. Whatever a script that comes to an end does, returning or
    raising, [execute_script] returns normally, the state is 'idle', and
    the completion signal is the last but one thing sent; an exception of
    the script is printed and goes no further. *)
Theorem execute_script_contains_failures (script : string) (s : Core) :
  exec_python script (script_entry s) <> Unfinished ->
  exists s' t,
    execute_script script s = Done s' /\
    st_state (state s') = "idle" /\
    trace s' = t ++ [SigFinished; SigUpdateGui false] /\
    (forall e s1,
       exec_python script (script_entry s) = Raised e s1 ->
       t = trace s1 ++ [PrintExc e]).
Proof.
  intros Hends. unfold execute_script. cbn. unfold seq_cmd at 1.
  fold (script_entry s).
  destruct (exec_python script (script_entry s)) as [s1 | e s1 |];
    [| | done]; cbn.
  - eexists _, _. split; [reflexivity |]. cbn.
    split; [done |]. split; [by rewrite <- app_assoc |]. done.
  - eexists _, _. split; [reflexivity |]. cbn.
    split; [done |]. split; [by rewrite <- app_assoc |].
    intros e' s1' [= <- <-]. done.
Qed.

(** * Further properties of the engine *)

(** ** Shutters and single snaps *)

(** X1. [open_shutters] decides both shutters from the configuration alone:
    afterwards the left shutter is open unless the configuration is
    'Right', the right one is open unless it is 'Left', and [shutterstate]
    is [True]; what the shutters were before plays no part. *)
Theorem open_shutters_pattern (s : Core) :
  exists s',
    open_shutters s = Done s' /\
    shutter_left s' = bool_decide (st_shutterconfig (state s) <> VStr "Right") /\
    shutter_right s' = bool_decide (st_shutterconfig (state s) <> VStr "Left") /\
    st_shutterstate (state s') = true /\
    st_shutterconfig (state s') = st_shutterconfig (state s).
Proof.
  unfold open_shutters.
  repeat case_decide; try congruence;
    (eexists; split; [reflexivity |]); cbn;
    repeat split; try done; symmetry;
    first [ apply bool_decide_eq_true_2 | apply bool_decide_eq_false_2 ];
    naive_solver.
Qed.

Lemma close_shutters_spec s :
  exists s',
    close_shutters s = Done s' /\
    trace s' = trace s ++ [ShutterLeft false; ShutterRight false] /\
    shutter_left s' = false /\
    shutter_right s' = false /\
    st_shutterstate (state s') = false /\
    st_state (state s') = st_state (state s) /\
    st_params (state s') = st_params (state s) /\
    files s' = files s /\
    same_run s s'.
Proof.
  eexists. split; [reflexivity |]. cbn.
  split; [by rewrite <- app_assoc |]. by repeat split.
Qed.

(** X2. [snap] runs one complete waveform cycle between opening the shutters
    by the configured pattern and closing both, and signals completion
    last; it leaves both shutters closed and no task buffer open, whatever
    the configuration and the previous shutter state. *)
Theorem snap_is_one_closed_cycle (s : Core) :
  exists s',
    snap s = Done s' /\
    trace s' =
      trace s ++ open_events (st_shutterconfig (state s)) ++
      [WfCreate; WfWrite; WfStart; WfRun; WfStop; WfClose;
       ShutterLeft false; ShutterRight false; SigFinished] /\
    shutter_left s' = false /\
    shutter_right s' = false /\
    st_shutterstate (state s') = false.
Proof.
  unfold snap. unfold seq_cmd at 1.
  destruct (open_shutters_spec s) as (s_o & -> & Ht & _).
  eexists. split; [reflexivity |]. cbn.
  split; [by rewrite Ht, <- !app_assoc |]. done.
Qed.

(** ** Starting a run *)

(** X3. [start] with a row beyond the acquisition list fails with
    [IndexError] right after clearing the stop flag: nothing is signalled
    and no counter is touched. *)
Theorem start_row_out_of_range (row : nat) (s : Core) :
  length (st_acq_list (state s)) <= row ->
  start (Some row) s = Raised IndexError (with_stopflag false s).
Proof.
  intros Hrow. unfold start. rewrite seq_step. cbn.
  by rewrite lookup_ge_None_2.
Qed.

Lemma list_exit_counters acq_list s :
  acquisition_count (list_exit acq_list s) = acquisition_count s /\
  total_acquisition_count (list_exit acq_list s) = total_acquisition_count s /\
  total_image_count (list_exit acq_list s) = total_image_count s /\
  polls (list_exit acq_list s) = polls s /\
  files (list_exit acq_list s) = files s.
Proof. unfold list_exit. by destruct (stopflag s). Qed.

Lemma list_exit_trace acq_list s :
  trace (list_exit acq_list s) =
  trace s ++
  (if stopflag s then []
   else [SigMoveAbsolute (list_startpoint acq_list) false]) ++
  [SigFinished; SigUpdateGui false].
Proof.
  unfold list_exit. destruct (stopflag s); cbn; by rewrite <- !app_assoc.
Qed.

(** X4. With a queue that delivers nothing but stop requests, at whichever
    polls (none, one or several), a run of the whole list returns, and its
    bookkeeping agrees with what it did: the image counter is the number of
    frames handed to the camera and the number of progress records, it never
    exceeds the announced total (the sum of the plane counts), and the
    acquisition counter has counted every member of the list, also those
    entered after a stop. *)
Theorem run_bookkeeping (s0 : Core) :
  exists s' t,
    start None s0 = Done s' /\
    trace s' = trace s0 ++ t /\
    image_count s' = count is_add_images t /\
    image_count s' = length (progress_of t) /\
    image_count s' <= total_image_count s' /\
    total_image_count s' = get_image_count (st_acq_list (state s0)) /\
    acquisition_count s' = length (st_acq_list (state s0)) /\
    total_acquisition_count s' = length (st_acq_list (state s0)).
Proof.
  set (l := st_acq_list (state s0)).
  destruct (run_acquisition_list_summary l (list_entry l s0))
    as (s1 & t & Hrun & Hsum).
  destruct (list_exit_fields l s1) as (Hi & _).
  destruct (list_exit_counters l s1) as (Ha & Hta & Hti & _).
  exists (list_exit l s1),
    ([SigUpdateGui true] ++ t ++
     (if stopflag s1 then []
      else [SigMoveAbsolute (list_startpoint l) false]) ++
     [SigFinished; SigUpdateGui false]).
  destruct Hsum.
  change (stopflag (list_entry l s0)) with false in *.
  change (polls (list_entry l s0)) with (polls s0) in *.
  change (image_count (list_entry l s0)) with 0 in *.
  change (acquisition_count (list_entry l s0)) with 0 in *.
  change (total_acquisition_count (list_entry l s0)) with (length l) in *.
  change (total_image_count (list_entry l s0)) with (get_image_count l) in *.
  pose proof (captured_le false (polls s0) (get_image_count l)) as Hle.
  assert (Hlen : length (progress_of t) =
                 captured false (polls s0) (get_image_count l)).
  { by rewrite <- (length_fmap Progress.image_counter), rs_counters0,
      length_seq. }
  split; [by apply start_None |].
  split.
  { rewrite list_exit_trace, rs_trace0. cbn. by rewrite <- !app_assoc. }
  rewrite !count_app, !progress_of_app.
  replace (progress_of (if stopflag s1 then []
             else [SigMoveAbsolute (list_startpoint l) false])) with
    (@nil Progress.t) by (by destruct (stopflag s1)).
  replace (count is_add_images (if stopflag s1 then []
             else [SigMoveAbsolute (list_startpoint l) false])) with 0
    by (by destruct (stopflag s1)).
  rewrite Hi, Ha, Hta, Hti.
  cbn [count progress_of is_add_images app]. rewrite app_nil_r.
  repeat split; lia.
Qed.

(** X5. With a queue that delivers nothing but stop requests, at whichever
    polls (none, one or several), a run of a list with at least one member
    returns with both shutters closed and [shutterstate] [False]. *)
Theorem run_leaves_shutters_closed (s0 : Core) :
  st_acq_list (state s0) <> [] ->
  exists s',
    start None s0 = Done s' /\
    shutter_left s' = false /\
    shutter_right s' = false /\
    st_shutterstate (state s') = false.
Proof.
  intros Hne. set (l := st_acq_list (state s0)) in *.
  destruct (run_acquisition_list_summary l (list_entry l s0))
    as (s1 & t & Hrun & Hsum).
  destruct (list_exit_fields l s1) as (_ & Hl & Hr & Hs & _).
  destruct Hsum. destruct (rs_shutters0 Hne) as (Hsl & Hsr & Hss).
  exists (list_exit l s1). split; [by apply start_None |].
  by rewrite Hl, Hr, Hs.
Qed.

(** ** Live and visual mode *)

Lemma log_all_app es1 es2 s : log_all (es1 ++ es2) s = log_all es2 (log_all es1 s).
Proof. apply foldl_app. Qed.

Lemma trace_log_all es s : trace (log_all es s) = trace s ++ es.
Proof.
  revert s. induction es as [|e es IH]; intros s.
  - cbn. by rewrite app_nil_r.
  - cbn [log_all foldl]. fold (log_all es (log e s)).
    rewrite IH. cbn. by rewrite <- app_assoc.
Qed.

Lemma log_all_fields es s :
  state (log_all es s) = state s /\
  stopflag (log_all es s) = stopflag s /\
  polls (log_all es s) = polls s /\
  shutter_left (log_all es s) = shutter_left s /\
  shutter_right (log_all es s) = shutter_right s.
Proof.
  revert s. induction es as [|e es IH]; intros s; [done |].
  cbn [log_all foldl]. fold (log_all es (log e s)).
  destruct (IH (log e s)) as (-> & -> & -> & -> & ->). done.
Qed.

Lemma live_loop_poll fuel s : live_loop fuel s = poll_loop snap_image fuel s.
Proof.
  revert s. induction fuel as [|fuel IH]; intros s; [done |].
  cbn [live_loop poll_loop]. destruct (stopflag s); [done |].
  unfold seq_cmd. destruct (snap_image s); [| done..].
  destruct (via_global "QtWidgets" processEvents s0); [| done..].
  destruct (open_shutters s1); [| done..]. apply IH.
Qed.

Lemma visual_loop_poll fuel s :
  visual_loop fuel s = poll_loop snap_image_in_series fuel s.
Proof.
  revert s. induction fuel as [|fuel IH]; intros s; [done |].
  cbn [visual_loop poll_loop]. destruct (stopflag s); [done |].
  unfold seq_cmd. destruct (snap_image_in_series s); [| done..].
  destruct (via_global "QtWidgets" processEvents s0); [| done..].
  destruct (open_shutters s1); [| done..]. apply IH.
Qed.

Lemma poll_pass (capture : cmd) es p s :
  (forall s, capture s = Done (log_all es s)) ->
  blind_to_polling p ->
  exists s1 t,
    (capture ;; via_global "QtWidgets" processEvents ;; open_shutters) s =
      Done s1 /\
    trace s1 = trace s ++ t /\
    count p t = count p es /\
    polls s1 = S (polls s) /\
    stopflag s1 = stopflag s || pending (polls s) /\
    (pending (polls s) = true -> st_state (state s1) = "idle") /\
    (stopped_idle s -> stopped_idle s1).
Proof.
  intros Hcap (Hpe & Hfin & Hgui & Hreq & Hsl & Hsr).
  rewrite via_global_QtWidgets. unfold seq_cmd at 1. rewrite Hcap.
  destruct (log_all_fields es s) as (Hst & Hflag & Hpolls & _).
  pose proof (trace_log_all es s) as Htr.
  unfold seq_cmd, processEvents. rewrite Hpolls.
  destruct (pending (polls s)) eqn:Hp; cbn;
    match goal with
    | |- context [open_shutters ?x] =>
        destruct (open_shutters_spec x) as (s1 & -> & Ht & _ & [] & Hs)
    end; cbn in *; eexists s1, _;
    (split; [done |]);
    (split; [rewrite Ht, Htr, <- !app_assoc; reflexivity |]);
    rewrite ?count_app, ?count_open_events by done; cbn;
    rewrite ?Hpe, ?Hfin, ?Hgui, ?Hreq; cbn;
    repeat split; try done; try lia; try congruence.
  - rewrite sr_stopflag0. by destruct (stopflag s).
  - by rewrite sr_stopflag0, ?Hflag, orb_false_r.
  - intros Hidle Hf. rewrite Hs, ?Hst. apply Hidle. congruence.
Qed.

Lemma poll_loop_stops (capture : cmd) es p n :
  (forall s, capture s = Done (log_all es s)) ->
  blind_to_polling p ->
  forall fuel s,
    stopflag s = false ->
    first_stop (polls s) n ->
    n < fuel ->
    exists s' t,
      poll_loop capture fuel s = Done s' /\
      trace s' = trace s ++ t /\
      count p t = S n * count p es /\
      polls s' = polls s + S n /\
      stopflag s' = true /\
      st_state (state s') = "idle".
Proof.
  intros Hcap Hblind.
  induction n as [|n IH]; intros fuel s Hflag [Hstop Hquiet] Hfuel;
    (destruct fuel as [|fuel]; [lia |]); cbn [poll_loop]; rewrite Hflag;
    destruct (poll_pass capture es p s Hcap Hblind)
      as (s1 & t1 & Hrun & Ht1 & Hc1 & Hp1 & Hf1 & Hi1 & _);
    rewrite <- !seq_cmd_assoc; unfold seq_cmd at 1;
    rewrite seq_cmd_assoc, Hrun.
  - rewrite Nat.add_0_r in Hstop. rewrite Hstop, Hflag in Hf1.
    exists s1, t1. destruct fuel; cbn [poll_loop]; rewrite Hf1;
      repeat split; try done; try lia; by apply Hi1.
  - assert (Hq0 : pending (polls s) = false).
    { rewrite <- (Nat.add_0_r (polls s)). apply Hquiet. lia. }
    rewrite Hq0, Hflag in Hf1.
    destruct (IH fuel s1) as (s' & t2 & Hrun2 & Ht2 & Hc2 & Hp2 & Hf2 & Hi2);
      [done | | lia |].
    { rewrite Hp1. split.
      - by replace (S (polls s) + n) with (polls s + S n) by lia.
      - intros j Hj. replace (S (polls s) + j) with (polls s + S j) by lia.
        apply Hquiet. lia. }
    exists s', (t1 ++ t2). rewrite Hrun2.
    repeat split; try done.
    + by rewrite Ht2, Ht1, app_assoc.
    + rewrite count_app, Hc1, Hc2. lia.
    + lia.
Qed.

Lemma poll_loop_runs_on (capture : cmd) es :
  (forall s, capture s = Done (log_all es s)) ->
  forall fuel s,
    stopflag s = false ->
    (forall j, pending (polls s + j) = false) ->
    poll_loop capture fuel s = Unfinished.
Proof.
  intros Hcap. induction fuel as [|fuel IH]; intros s Hflag Hquiet;
    cbn [poll_loop]; rewrite Hflag; [done |].
  destruct (poll_pass capture es is_create s Hcap)
    as (s1 & t1 & Hrun & _ & _ & Hp1 & Hf1 & _); [by repeat split |].
  rewrite <- !seq_cmd_assoc. unfold seq_cmd at 1.
  rewrite seq_cmd_assoc, Hrun. apply IH.
  - rewrite Hf1, Hflag. rewrite <- (Nat.add_0_r (polls s)). apply Hquiet.
  - intros j. rewrite Hp1.
    replace (S (polls s) + j) with (polls s + S j) by lia. apply Hquiet.
Qed.

Lemma snap_image_logs s :
  snap_image s = Done (log_all [WfCreate; WfWrite; WfStart; WfRun; WfStop; WfClose] s).
Proof. reflexivity. Qed.

Lemma snap_image_in_series_logs s :
  snap_image_in_series s = Done (log_all [WfStart; WfRun; WfStop] s).
Proof. reflexivity. Qed.

(** X6. [live] with the first stop request found by its poll number [n]
    returns after [n + 1] complete waveform cycles: it creates and closes
    the task buffers [n + 1] times, leaves both shutters closed, the stop
    flag set and the state 'idle', and signals completion last. A stop
    flag set before the call is cleared and plays no part. *)
Theorem live_stops_after (s : Core) (n fuel : nat) :
  first_stop (polls s) n ->
  n < fuel ->
  exists s' t,
    live fuel s = Done s' /\
    trace s' = trace s ++ t ++ [SigFinished] /\
    count is_create t = S n /\
    count is_close t = S n /\
    count is_start t = S n /\
    polls s' = polls s + S n /\
    shutter_left s' = false /\
    shutter_right s' = false /\
    st_shutterstate (state s') = false /\
    stopflag s' = true /\
    st_state (state s') = "idle".
Proof.
  intros Hstop Hfuel. unfold live. rewrite seq_step. unfold seq_cmd at 1.
  destruct (open_shutters_spec (with_stopflag false s))
    as (s_o & -> & Hto & _ & [] & _).
  cbn in Hto, sr_stopflag0, sr_polls0.
  unfold seq_cmd at 1. rewrite live_loop_poll.
  assert (Hloop : forall p, blind_to_polling p ->
    exists s_l t,
      poll_loop snap_image fuel s_o = Done s_l /\
      trace s_l = trace s_o ++ t /\
      count p t =
        S n * count p [WfCreate; WfWrite; WfStart; WfRun; WfStop; WfClose] /\
      polls s_l = polls s_o + S n /\
      stopflag s_l = true /\
      st_state (state s_l) = "idle").
  { intros p Hp. apply (poll_loop_stops snap_image _ p n snap_image_logs Hp);
      [done | by rewrite sr_polls0 | done]. }
  destruct (Hloop is_create) as (s_l & t & Hrun & Ht & Hcreate & Hp & Hf & Hi);
    [by repeat split |].
  destruct (Hloop is_close) as (s_l' & t' & Hrun' & Ht' & Hclose & _);
    [by repeat split |].
  destruct (Hloop is_start) as (s_l'' & t'' & Hrun'' & Ht'' & Hstart & _);
    [by repeat split |].
  assert (s_l' = s_l) as -> by congruence.
  assert (s_l'' = s_l) as -> by congruence.
  assert (t' = t) as ->.
  { apply (app_inv_head (trace s_o)). congruence. }
  assert (t'' = t) as ->.
  { apply (app_inv_head (trace s_o)). congruence. }
  rewrite Hrun.
  destruct (close_shutters_spec s_l)
    as (s_c & Hc & Htc & Hcl & Hcr & Hcs & Hcst & _ & _ & []).
  unfold seq_cmd. rewrite Hc.
  exists (log SigFinished s_c),
    (open_events (st_shutterconfig (state (with_stopflag false s))) ++ t ++
     [ShutterLeft false; ShutterRight false]).
  split; [done |]. split.
  { cbn. rewrite Htc, Ht, Hto. cbn. by rewrite <- !app_assoc. }
  rewrite !count_app, !count_open_events by done.
  change (count is_create [WfCreate; WfWrite; WfStart; WfRun; WfStop; WfClose])
    with 1 in Hcreate.
  change (count is_close [WfCreate; WfWrite; WfStart; WfRun; WfStop; WfClose])
    with 1 in Hclose.
  change (count is_start [WfCreate; WfWrite; WfStart; WfRun; WfStop; WfClose])
    with 1 in Hstart.
  cbn.
  repeat split; try done; try lia; try congruence.
Qed.

(** X7. [live] on a queue that never holds a stop request does not return:
    whatever the fuel, it is still looping when the fuel is spent. *)
Theorem live_runs_until_stopped (s : Core) (fuel : nat) :
  (forall j, pending (polls s + j) = false) ->
  live fuel s = Unfinished.
Proof.
  intros Hquiet. unfold live. rewrite seq_step. unfold seq_cmd at 1.
  destruct (open_shutters_spec (with_stopflag false s))
    as (s_o & -> & _ & _ & [] & _).
  cbn in sr_stopflag0, sr_polls0.
  unfold seq_cmd at 1. rewrite live_loop_poll.
  rewrite (poll_loop_runs_on snap_image _ snap_image_logs); [done | done |].
  intros j. rewrite sr_polls0. apply Hquiet.
Qed.

(** X8. [visual_mode] with the first stop request found by its poll number
    [n]: the two ETL amplitudes are requested to be zero before the task
    buffers are created, the buffers are created once and closed once around
    [n + 1] cycles, both shutters end closed, and the two restoring requests
    are the last things sent, after the completion signal. *)
Theorem visual_mode_is_one_series (s : Core) (n fuel : nat) :
  first_stop (polls s) n ->
  n < fuel ->
  exists s' shutterconfig cycles,
    visual_mode fuel s = Done s' /\
    trace s' =
      trace s ++
      [SigStateRequest "etl_l_amplitude" (VInt 0) false;
       SigStateRequest "etl_r_amplitude" (VInt 0) false;
       WfCreate; WfWrite] ++
      open_events shutterconfig ++ cycles ++
      [WfClose; ShutterLeft false; ShutterRight false; SigFinished;
       SigStateRequest "etl_l_amplitude" (getp (state s) "etl_l_amplitude") false;
       SigStateRequest "etl_r_amplitude" (getp (state s) "etl_r_amplitude") false] /\
    count is_create cycles = 0 /\
    count is_close cycles = 0 /\
    count is_start cycles = S n /\
    shutter_left s' = false /\
    shutter_right s' = false /\
    stopflag s' = true.
Proof.
  intros Hstop Hfuel. unfold visual_mode.
  cbn. unfold seq_cmd at 1.
  match goal with
  | |- context [open_shutters ?x] =>
      destruct (open_shutters_spec x) as (s_o & -> & Hto & _ & [] & _);
      set (cfg := st_shutterconfig (state x)) in *
  end.
  cbn in Hto, sr_stopflag0, sr_polls0.
  unfold seq_cmd at 1. rewrite visual_loop_poll.
  assert (Hloop : forall p, blind_to_polling p ->
    exists s_l t,
      poll_loop snap_image_in_series fuel s_o = Done s_l /\
      trace s_l = trace s_o ++ t /\
      count p t = S n * count p [WfStart; WfRun; WfStop] /\
      polls s_l = polls s_o + S n /\
      stopflag s_l = true /\
      st_state (state s_l) = "idle").
  { intros p Hp.
    apply (poll_loop_stops snap_image_in_series _ p n
             snap_image_in_series_logs Hp);
      [done | by rewrite sr_polls0 | done]. }
  destruct (Hloop is_create) as (s_l & t & Hrun & Ht & Hcreate & Hp & Hf & Hi);
    [by repeat split |].
  destruct (Hloop is_close) as (s_l' & t' & Hrun' & Ht' & Hclose & _);
    [by repeat split |].
  destruct (Hloop is_start) as (s_l'' & t'' & Hrun'' & Ht'' & Hstart & _);
    [by repeat split |].
  assert (s_l' = s_l) as -> by congruence.
  assert (s_l'' = s_l) as -> by congruence.
  assert (t' = t) as ->.
  { apply (app_inv_head (trace s_o)). congruence. }
  assert (t'' = t) as ->.
  { apply (app_inv_head (trace s_o)). congruence. }
  change (count is_create [WfStart; WfRun; WfStop]) with 0 in Hcreate.
  change (count is_close [WfStart; WfRun; WfStop]) with 0 in Hclose.
  change (count is_start [WfStart; WfRun; WfStop]) with 1 in Hstart.
  rewrite Hrun. cbn.
  eexists _, cfg, t. split; [reflexivity |]. cbn.
  split; [by rewrite Ht, Hto, <- !app_assoc |].
  repeat split; try done; lia.
Qed.

(** ** The progress stream *)

Lemma run_acquisition_list_progress l :
  forall s,
    stopflag s = false ->
    (forall j, j < get_image_count l -> pending (polls s + j) = false) ->
    exists s' t,
      run_acquisition_list l s = Done s' /\
      list_summary l s s' t /\
      progress_of t =
        progress_stream (total_acquisition_count s) (total_image_count s)
          (acquisition_count s) (image_count s) l.
Proof.
  induction l as [|acq l IH]; intros s Hflag Hquiet.
  - destruct (run_acquisition_list_summary [] s) as (s' & t & Hrun & Hsum).
    exists s', t. split; [done |]. split; [done |].
    injection Hrun as <-. destruct Hsum.
    apply (f_equal length) in rs_trace0. rewrite length_app in rs_trace0.
    by destruct t; [| cbn in rs_trace0; lia].
  - change (get_image_count (acq :: l))
      with (planes acq + get_image_count l) in Hquiet.
    destruct (acquire_total acq s) as (s1 & t1 & Hrun1 & H1).
    destruct (captured_quiet (polls s) (planes acq)) as [Hc Hf].
    { intros j Hj. apply Hquiet. lia. }
    destruct H1. rewrite Hflag, Hc, ?Hf in *.
    destruct (IH s1) as (s' & t2 & Hrun2 & H2 & Hp2); [done | |].
    { intros j Hj. rewrite as_polls0, <- Nat.add_assoc. apply Hquiet. lia. }
    destruct (run_acquisition_list_summary (acq :: l) s)
      as (s'' & t & Hrun & Hsum).
    assert (Hrun' : run_acquisition_list (acq :: l) s = Done s').
    { cbn [run_acquisition_list]. unfold seq_cmd. by rewrite Hrun1. }
    assert (s'' = s') as -> by congruence.
    exists s', t. split; [done |]. split; [done |].
    assert (t = t1 ++ t2) as ->.
    { apply (app_inv_head (trace s)). destruct Hsum, H2.
      by rewrite <- rs_trace0, rs_trace1, as_trace0, app_assoc. }
    rewrite progress_of_app, as_progress0, Hp2.
    cbn [progress_stream]. f_equal.
    rewrite as_total_acquisition_count0, as_total_image_count0,
      as_acquisition_count0, as_image_count0.
    by replace (acquisition_count s + 1) with (S (acquisition_count s)) by lia.
Qed.

(** X9. A list run to completion reports every plane once and in order: the
    record of plane [j] of acquisition [i] (both counted from 0) carries
    [i], the number of acquisitions, [j], the acquisition's plane count, the
    sum of all plane counts, and, as image counter, one more than the number
    of planes before it in the run. *)
Theorem progress_stream_of_complete_run (s0 : Core) :
  (forall j, j < get_image_count (st_acq_list (state s0)) ->
             pending (polls s0 + j) = false) ->
  exists s' t,
    start None s0 = Done s' /\
    trace s' = trace s0 ++ t /\
    progress_of t =
      progress_stream (length (st_acq_list (state s0)))
        (get_image_count (st_acq_list (state s0))) 0 0
        (st_acq_list (state s0)).
Proof.
  intros Hquiet. set (l := st_acq_list (state s0)) in *.
  destruct (run_acquisition_list_progress l (list_entry l s0))
    as (s1 & t & Hrun & Hsum & Hp); [done | done |].
  exists (list_exit l s1),
    ([SigUpdateGui true] ++ t ++
     (if stopflag s1 then []
      else [SigMoveAbsolute (list_startpoint l) false]) ++
     [SigFinished; SigUpdateGui false]).
  split; [by apply start_None |]. destruct Hsum. split.
  { rewrite list_exit_trace, rs_trace0. cbn. by rewrite <- !app_assoc. }
  rewrite !progress_of_app, Hp.
  replace (progress_of (if stopflag s1 then []
             else [SigMoveAbsolute (list_startpoint l) false])) with
    (@nil Progress.t) by (by destruct (stopflag s1)).
  cbn. by rewrite app_nil_r.
Qed.

Lemma start_Some row acq s s1 :
  st_acq_list (state s) !! row = Some acq ->
  run_acquisition_list [acq] (list_entry [acq] s) = Done s1 ->
  start (Some row) s = Done (list_exit [acq] s1).
Proof.
  intros Hrow Hrun. unfold start, list_exit. rewrite seq_step. cbn.
  rewrite Hrow.
  change ((fun acquisition => [acquisition]) <$> Some acq) with (Some [acq]).
  cbv beta iota. fold (list_entry [acq] s).
  unfold seq_cmd at 1. rewrite Hrun.
  unfold close_acquisition_list, seq_cmd.
  by destruct (stopflag s1).
Qed.

(** X10. [start] with a row of the list runs that acquisition alone, as a list
    of one: without a stop request it writes one metadata file, captures the
    acquisition's planes, and its progress records count acquisition 0 of 1
    and announce the acquisition's own plane count as the total. *)
Theorem start_row_runs_that_acquisition (row : nat) (acq : Acquisition)
    (s : Core) :
  st_acq_list (state s) !! row = Some acq ->
  (forall j, j < planes acq -> pending (polls s + j) = false) ->
  exists s' t,
    start (Some row) s = Done s' /\
    trace s' = trace s ++ t /\
    count is_file_write t = 1 /\
    count is_add_images t = planes acq /\
    progress_of t = progress_stream 1 (planes acq) 0 0 [acq].
Proof.
  intros Hrow Hquiet.
  destruct (run_acquisition_list_progress [acq] (list_entry [acq] s))
    as (s1 & t & Hrun & Hsum & Hp); [done | |].
  { intros j Hj. apply Hquiet. cbn in Hj. lia. }
  destruct (captured_quiet (polls s) (planes acq) Hquiet) as [Hc Hf].
  exists (list_exit [acq] s1),
    ([SigUpdateGui true] ++ t ++
     (if stopflag s1 then []
      else [SigMoveAbsolute (list_startpoint [acq]) false]) ++
     [SigFinished; SigUpdateGui false]).
  split; [by apply (start_Some row) |]. destruct Hsum.
  change (get_image_count [acq]) with (planes acq + 0) in *.
  rewrite Nat.add_0_r in *.
  change (stopflag (list_entry [acq] s)) with false in *.
  change (polls (list_entry [acq] s)) with (polls s) in *.
  rewrite Hc in *. split.
  { rewrite list_exit_trace, rs_trace0. cbn. by rewrite <- !app_assoc. }
  rewrite !count_app, !progress_of_app, Hp, rs_file_write0, rs_add_images0.
  destruct (stopflag s1); cbn; rewrite ?app_nil_r, ?Nat.add_0_r;
    repeat split; try done; lia.
Qed.

(** ** The order of events in an acquisition *)

Lemma plane_loop_quiet_trace acq steps n :
  forall i s,
    stopflag s = false ->
    (forall j, j < n -> pending (polls s + j) = false) ->
    exists s',
      plane_loop acq steps i n s = Done s' /\
      trace s' = trace s ++ concat (plane_events acq s steps i <$> seq 0 n).
Proof.
  induction n as [|n IH]; intros i s Hflag Hquiet.
  - exists s. split; [done |]. cbn. by rewrite app_nil_r.
  - assert (Hp : pending (polls s) = false).
    { rewrite <- (Nat.add_0_r (polls s)). apply Hquiet. lia. }
    cbn [plane_loop]. rewrite Hflag.
    unfold seq_cmd at 1, capture_plane. rewrite via_global_QtWidgets.
    unfold processEvents, seq_cmd at 1 2 3 4. cbn. rewrite Hp. cbn.
    match goal with
    | |- context [plane_loop acq steps (S i) n ?x] =>
        destruct (IH (S i) x) as (s' & Hrun & Ht)
    end.
    + done.
    + intros j Hj. cbn. replace (S (polls s + j)) with (polls s + S j) by lia.
      apply Hquiet. lia.
    + exists s'. split; [done |]. rewrite Ht. cbn.
      rewrite <- !app_assoc. cbn. do 8 f_equal.
      { unfold progress_at. by rewrite !Nat.add_0_r. }
      rewrite <- fmap_S_seq, <- list_fmap_compose. f_equal.
      apply list_fmap_ext. intros _ j _. cbn. unfold plane_events.
      by rewrite (progress_at_shift s) by reflexivity.
Qed.

(** X11. An acquisition that meets no stop request does, in this order: the
    prepare step, the opening of the shutters, for each plane 0, 1, ... one
    cycle of start, run, stop, frame to the camera, poll, blocking z step,
    progress record; then both shutters closed, the blocking move back to
    its start point, the task buffers closed, the end of the series. *)
Theorem acquisition_event_order (acq : Acquisition) (s : Core) :
  stopflag s = false ->
  (forall j, j < planes acq -> pending (polls s + j) = false) ->
  exists s' shutterconfig,
    acquire acq s = Done s' /\
    stopflag s' = false /\
    trace s' =
      trace s ++ prepare_events acq ++ open_events shutterconfig ++
      concat (plane_events acq s (planes acq) 0 <$> seq 0 (planes acq)) ++
      [ShutterLeft false; ShutterRight false;
       SigMoveAbsolute (startpoint acq) true; WfClose; SigEndImageSeries].
Proof.
  intros Hflag Hquiet.
  destruct (acquire_steps acq s)
    as (s_p & s_o & s_l & t_l & s' & Hp & Ho & Hl & Hsum & Hrun & Ht & _ & Ha).
  destruct (prepare_acquisition_spec acq s) as (s_p' & Hp' & _ & _ & [] & _).
  destruct (open_shutters_spec s_p) as (s_o' & Ho' & _ & _ & [] & _).
  assert (s_p' = s_p) as -> by congruence.
  assert (s_o' = s_o) as -> by congruence.
  destruct (plane_loop_quiet_trace acq (planes acq) (planes acq) 0 s_o)
    as (s_l' & Hl' & Ht_l); [congruence | |].
  { intros j Hj. rewrite sr_polls1, sr_polls0. by apply Hquiet. }
  assert (s_l' = s_l) as -> by congruence.
  destruct (captured_quiet (polls s) (planes acq) Hquiet) as [Hc Hf].
  destruct Ha, Hsum.
  assert (Hflag_l : stopflag s_l = false) by congruence.
  assert (Ht_l' : t_l =
    concat (plane_events acq s (planes acq) 0 <$> seq 0 (planes acq))).
  { apply (app_inv_head (trace s_o)). rewrite <- ls_trace0, Ht_l.
    do 2 f_equal. apply list_fmap_ext. intros _ j _.
    unfold plane_events, progress_at. by rewrite sr_acquisition_count1,
      sr_acquisition_count0, sr_total_acquisition_count1,
      sr_total_acquisition_count0, sr_total_image_count1,
      sr_total_image_count0, sr_image_count1, sr_image_count0. }
  exists s', (st_shutterconfig (state s_p)).
  split; [done |]. split; [congruence |].
  by rewrite Ht, Ht_l', Hflag_l.
Qed.

(** ** Stage moves *)

Lemma plane_loop_moves acq steps n :
  forall i s,
    exists s' t,
      plane_loop acq steps i n s = Done s' /\
      trace s' = trace s ++ t /\
      count is_async_move t = 0.
Proof.
  induction n as [|n IH]; intros i s.
  - exists s, []. split; [done |]. split; [by rewrite app_nil_r | done].
  - cbn [plane_loop]. destruct (stopflag s) eqn:Hflag.
    + eexists _, _. split; [reflexivity |]. split; [trace_step | done].
    + unfold seq_cmd at 1, capture_plane. rewrite via_global_QtWidgets.
      unfold processEvents, seq_cmd at 1 2 3 4. cbn.
      destruct (pending (polls s)); cbn;
        match goal with
        | |- context [plane_loop acq steps (S i) n ?x] =>
            destruct (IH (S i) x) as (s' & t & Hrun & Ht & Hc)
        end;
        eexists s', _; (split; [done |]);
        (split; [rewrite Ht; cbn; rewrite <- !app_assoc; reflexivity |]);
        by rewrite !count_app, Hc.
Qed.

Lemma acquire_moves acq s :
  exists s' t,
    acquire acq s = Done s' /\
    trace s' = trace s ++ t /\
    count is_async_move t = 0.
Proof.
  destruct (acquire_steps acq s)
    as (s_p & s_o & s_l & t_l & s' & _ & _ & Hl & Hsum & Hrun & Ht & _ & _).
  destruct (plane_loop_moves acq (planes acq) (planes acq) 0 s_o)
    as (s_l' & t_l' & Hl' & Ht' & Hc).
  assert (s_l' = s_l) as -> by congruence.
  assert (t_l' = t_l) as ->.
  { apply (app_inv_head (trace s_o)). destruct Hsum. congruence. }
  eexists s', _. split; [done |]. split; [exact Ht |].
  rewrite !count_app, Hc, count_open_events by done.
  unfold closing_events. by destruct (stopflag s_l).
Qed.

Lemma run_acquisition_list_moves l :
  forall s,
    exists s' t,
      run_acquisition_list l s = Done s' /\
      trace s' = trace s ++ t /\
      count is_async_move t = 0.
Proof.
  induction l as [|acq l IH]; intros s.
  - exists s, []. split; [done |]. split; [by rewrite app_nil_r | done].
  - destruct (acquire_moves acq s) as (s1 & t1 & Hrun1 & Ht1 & Hc1).
    destruct (IH s1) as (s' & t2 & Hrun2 & Ht2 & Hc2).
    exists s', (t1 ++ t2). cbn [run_acquisition_list]. unfold seq_cmd.
    rewrite Hrun1. split; [done |].
    split; [by rewrite Ht2, Ht1, app_assoc |].
    rewrite count_app. lia.
Qed.

(** X12. With a queue that delivers nothing but stop requests, at whichever
    polls (none, one or several), every stage move the engine sends while
    the list runs waits for completion. The one move of a run that does not
    wait is the return to the start point of the list: it is sent just
    before the completion signal, and only if the run ends with the stop
    flag clear. *)
Theorem run_moves_wait (s0 : Core) :
  exists s' body,
    start None s0 = Done s' /\
    trace s' =
      trace s0 ++ [SigUpdateGui true] ++ body ++
      (if stopflag s' then []
       else [SigMoveAbsolute (list_startpoint (st_acq_list (state s0))) false]) ++
      [SigFinished; SigUpdateGui false] /\
    count is_async_move body = 0.
Proof.
  set (l := st_acq_list (state s0)).
  destruct (run_acquisition_list_moves l (list_entry l s0))
    as (s1 & t & Hrun & Ht & Hc).
  destruct (list_exit_fields l s1) as (_ & _ & _ & _ & Hf).
  exists (list_exit l s1), t.
  split; [by apply start_None |]. split; [| done].
  rewrite list_exit_trace, Ht, Hf. cbn. by rewrite <- !app_assoc.
Qed.

(** ** Files *)

Lemma run_acquisition_list_cons acq l s :
  run_acquisition_list (acq :: l) s =
  match acquire acq s with
  | Done s1 => run_acquisition_list l s1
  | Raised e s1 => Raised e s1
  | Unfinished => Unfinished
  end.
Proof. reflexivity. Qed.

Lemma run_acquisition_list_files l :
  forall s,
    exists s',
      run_acquisition_list l s = Done s' /\
      (forall path,
         path ∉ metadata_path <$> l -> files s' !! path = files s !! path) /\
      (forall l1 acq l2,
         l = l1 ++ acq :: l2 ->
         metadata_path acq ∉ metadata_path <$> l2 ->
         exists s_i,
           run_acquisition_list l1 s = Done s_i /\
           files s' !! metadata_path acq =
             Some (metadata_lines acq (prepared_state acq (state s_i)))).
Proof.
  induction l as [|acq l IH]; intros s.
  - exists s. split; [done |]. split; [done |].
    intros l1 acq l2 Hl. by destruct l1.
  - destruct (acquire_steps acq s)
      as (s_p & s_o & s_l & t_l & s1 & Hp & _ & _ & _ & Hrun1 & _ & Hf1 & _).
    destruct (IH s1) as (s' & Hrun & Hframe & Hlast).
    exists s'. rewrite run_acquisition_list_cons, Hrun1.
    split; [done |]. split.
    + intros path Hpath. rewrite fmap_cons in Hpath.
      apply not_elem_of_cons in Hpath as [Hne Hpath].
      rewrite (Hframe path Hpath), Hf1. by apply lookup_insert_ne.
    + intros l1 acq' l2 Hl Hfresh. destruct l1 as [|acq1 l1].
      * injection Hl as <- <-. exists s. split; [done |].
        rewrite (Hframe _ Hfresh), Hf1, (prepare_acquisition_state _ _ _ Hp).
        apply lookup_insert_eq.
      * injection Hl as <- ->.
        destruct (Hlast l1 acq' l2 eq_refl Hfresh) as (s_i & Hrun_i & Hfile).
        exists s_i. by rewrite run_acquisition_list_cons, Hrun1.
Qed.

(** X13. With a queue that delivers nothing but stop requests, at whichever
    polls (none, one or several), a run of the list writes the metadata
    files of its members and no other file: every path that is not the
    metadata path of a member holds afterwards what it held before. *)
Theorem run_writes_only_metadata (s0 : Core) (path : string) :
  path ∉ metadata_path <$> st_acq_list (state s0) ->
  exists s',
    start None s0 = Done s' /\
    files s' !! path = files s0 !! path.
Proof.
  intros Hpath. set (l := st_acq_list (state s0)) in *.
  destruct (run_acquisition_list_files l (list_entry l s0))
    as (s1 & Hrun & Hframe & _).
  destruct (list_exit_counters l s1) as (_ & _ & _ & _ & Hf).
  exists (list_exit l s1). split; [by apply start_None |].
  by rewrite Hf, (Hframe path Hpath).
Qed.

(** X14. After a run in which the polls deliver nothing but stop requests,
    the metadata file of a member whose path no later member shares is the
    record of that member: read back line by line, it carries under every
    key the text of the member's value or of the shared state's value, the
    shared state being the one left by the members before it, after this
    member's shutter configuration was stored and its filter, zoom, laser
    and intensity requests were served. So when members share a folder and
    file name, the file is the record of the last of them. *)
Theorem last_acquisition_owns_metadata (s0 : Core)
    (l1 l2 : list Acquisition) (acq : Acquisition) :
  st_acq_list (state s0) = l1 ++ acq :: l2 ->
  metadata_path acq ∉ metadata_path <$> l2 ->
  exists s_i s' content,
    run_acquisition_list l1 (list_entry (l1 ++ acq :: l2) s0) = Done s_i /\
    start None s0 = Done s' /\
    files s' !! metadata_path acq = Some content /\
    read_line <$> content =
      record_layout acq (prepared_state acq (state s_i)).
Proof.
  intros Hl Hfresh. set (l := st_acq_list (state s0)) in *.
  destruct (run_acquisition_list_files l (list_entry l s0))
    as (s1 & Hrun & _ & Hlast).
  destruct (Hlast l1 acq l2 Hl Hfresh) as (s_i & Hrun_i & Hfile).
  destruct (list_exit_counters l s1) as (_ & _ & _ & _ & Hf).
  exists s_i, (list_exit l s1),
    (metadata_lines acq (prepared_state acq (state s_i))).
  split; [by rewrite <- Hl |]. split; [by apply start_None |].
  split; [by rewrite Hf |]. apply read_metadata_lines.
Qed.

(** ** Requests *)

Lemma waveform_key_not_engine_key key :
  key ∈ waveform_keys -> bool_decide (key ∈ engine_keys) = false.
Proof.
  intros Hkey.
  assert (Hall : forallb (fun k => negb (bool_decide (k ∈ engine_keys)))
                   waveform_keys = true) by (by vm_compute).
  rewrite forallb_forall in Hall.
  apply list_elem_of_In, Hall in Hkey. by apply negb_true_iff in Hkey.
Qed.

Lemma set_state_unknown fuel mode s :
  mode ∉ mode_names -> set_state fuel mode s = Done s.
Proof.
  intros Hmode. unfold set_state.
  repeat case_decide; try done; subst; exfalso; apply Hmode;
    unfold mode_names; set_solver.
Qed.

(** X15. A request made only of items the engine has no use for (unknown keys,
    or 'state' with a value that names no mode) is dropped: the engine is
    left exactly as it was and nothing is signalled. *)
Theorem unknown_requests_are_dropped (fuel : nat)
    (dict : list (string * value)) (s : Core) :
  Forall ignored_request dict ->
  state_request_handler fuel dict s = Done s.
Proof.
  induction 1 as [|[key v] dict Hitem _ IH]; [done |].
  cbn [state_request_handler]. unfold seq_cmd.
  unfold ignored_request in Hitem. cbn [fst snd] in Hitem.
  destruct Hitem as [[Hengine Hwave] | [-> Hmode]].
  - rewrite !bool_decide_eq_false_2 by done. exact IH.
  - rewrite bool_decide_eq_true_2 by (unfold engine_keys; set_solver).
    unfold call_setter. repeat (case_decide; [discriminate |]).
    case_decide; [| done]. by rewrite set_state_unknown.
Qed.

(** X16. A request made only of waveform parameters is forwarded to the
    waveform generator item by item, in order and without waiting; the
    engine's own flags, shutters and counters are left alone, and the shared
    state is what the collaborators' slots make of it. *)
Theorem waveform_requests_are_forwarded (fuel : nat)
    (dict : list (string * value)) (s : Core) :
  Forall (fun item => item.1 ∈ waveform_keys) dict ->
  exists s',
    state_request_handler fuel dict s = Done s' /\
    trace s' =
      trace s ++ ((fun item => SigStateRequest item.1 item.2 false) <$> dict) /\
    state s' =
      foldl (fun st item => on_state_request item.1 item.2 false st)
        (state s) dict /\
    stopflag s' = stopflag s /\
    shutter_left s' = shutter_left s /\
    shutter_right s' = shutter_right s /\
    image_count s' = image_count s /\
    polls s' = polls s.
Proof.
  intros Hall. revert s.
  induction Hall as [|[key v] dict Hkey _ IH]; intros s.
  - exists s. split; [done |]. split; [by rewrite app_nil_r | done].
  - cbn [state_request_handler]. unfold seq_cmd. cbn in Hkey.
    rewrite (waveform_key_not_engine_key key Hkey).
    rewrite bool_decide_eq_true_2 by done.
    cbn [request emit step seq_cmd].
    match goal with
    | |- context [state_request_handler fuel dict ?x] =>
        destruct (IH x) as (s' & -> & Ht & Hs & Hf & Hl & Hr & Hi & Hp)
    end.
    exists s'. split; [done |]. cbn in *.
    split; [by rewrite Ht, <- app_assoc |]. done.
Qed.

(** ** Mode changes *)

Lemma plane_loop_keeps_state acq steps n :
  forall i s s',
    plane_loop acq steps i n s = Done s' ->
    stopflag s' = false ->
    state s' = state s.
Proof.
  induction n as [|n IH]; intros i s s' Hrun Hflag'.
  - by injection Hrun as <-.
  - cbn [plane_loop] in Hrun. destruct (stopflag s) eqn:Hflag.
    + injection Hrun as <-. cbn in Hflag'. congruence.
    + destruct (capture_plane_summary acq steps i s Hflag)
        as (s1 & t1 & Hrun1 & H1).
      unfold seq_cmd in Hrun. rewrite Hrun1 in Hrun.
      destruct (plane_loop_summary acq steps n (S i) s1)
        as (s'' & t2 & Hrun2 & H2).
      assert (s'' = s') as -> by congruence.
      destruct H1, H2. rewrite Hflag in *.
      change (flag_after false (polls s) 1) with (pending (polls s)) in *.
      destruct (pending (polls s)) eqn:Hp.
      * rewrite ls_stopflag0, flag_after_stopped in ls_stopflag1. congruence.
      * rewrite (IH (S i) s1 s' Hrun Hflag').
        revert Hrun1. unfold capture_plane. rewrite via_global_QtWidgets.
        unfold processEvents, seq_cmd at 1 2 3 4. cbn. rewrite Hp. cbn.
        by intros [= <-].
Qed.

Lemma acquire_keeps_state acq s s' :
  never_touches_state ->
  acquire acq s = Done s' ->
  stopflag s' = false ->
  st_state (state s') = st_state (state s).
Proof.
  intros Hnever Hrun Hflag.
  destruct (acquire_steps acq s)
    as (s_p & s_o & s_l & t_l & s'' & Hp & Ho & Hl & Hsum & Hrun' & _ & _ & Ha).
  assert (s'' = s') as -> by congruence.
  destruct (prepare_acquisition_spec acq s)
    as (s_p' & Hp' & _ & _ & _ & _ & _ & Hkp).
  destruct (open_shutters_spec s_p) as (s_o' & Ho' & _ & _ & _ & Hso).
  assert (s_p' = s_p) as -> by congruence.
  assert (s_o' = s_o) as -> by congruence.
  destruct (close_shutters_spec s_l)
    as (s_c & Hc & _ & _ & _ & _ & Hcs & _ & _ & []).
  revert Hrun. unfold acquire, run_acquisition, seq_cmd at 1 2.
  rewrite Hp. unfold seq_cmd at 1 2. rewrite Ho, Hl, Hc.
  unfold close_acquisition, seq_cmd at 1.
  destruct (stopflag s_c) eqn:Hflag_c; cbn; intros [= <-]; cbn in *.
  - congruence.
  - rewrite Hcs, (plane_loop_keeps_state _ _ _ _ _ _ Hl) by congruence.
    rewrite Hso. apply Hkp. intros key v st. apply Hnever.
Qed.

Lemma run_acquisition_list_keeps_state l :
  never_touches_state ->
  forall s s',
    run_acquisition_list l s = Done s' ->
    stopflag s' = false ->
    stopflag s = false /\ st_state (state s') = st_state (state s).
Proof.
  intros Hnever. induction l as [|acq l IH]; intros s s' Hrun Hflag.
  - by injection Hrun as <-.
  - destruct (acquire_total acq s) as (s1 & t1 & Hrun1 & H1).
    rewrite run_acquisition_list_cons, Hrun1 in Hrun.
    destruct (IH s1 s' Hrun Hflag) as [Hflag1 Hstate].
    destruct H1. split.
    + destruct (stopflag s); [| done].
      rewrite flag_after_stopped in as_stopflag0. congruence.
    + rewrite Hstate. by apply (acquire_keeps_state acq).
Qed.

(** X17. A request for the mode 'run_acquisition_list' runs the list and
    returns with the stop flag telling whether a stop request was found;
    the key 'state' then reads 'idle' only in that case. After a run that
    went to completion it still reads 'run_acquisition_list': the engine
    does not go back to 'idle' by itself. *)
Theorem run_mode_state_after (fuel : nat) (s : Core) :
  never_touches_state ->
  never_touches_acq_list ->
  exists s',
    set_state fuel (VStr "run_acquisition_list") s = Done s' /\
    stopflag s' =
      flag_after false (polls s) (get_image_count (st_acq_list (state s))) /\
    st_state (state s') =
      if stopflag s' then "idle" else "run_acquisition_list".
Proof.
  intros Hnever Hlist. unfold set_state.
  repeat (case_decide; [discriminate |]). case_decide; [| done].
  unfold request, emit. repeat (rewrite seq_step || rewrite seq_cmd_assoc).
  match goal with
  | |- context [start None ?x] => set (s0 := x)
  end.
  set (l := st_acq_list (state s0)).
  assert (Hl : st_acq_list (state s) = l).
  { unfold l, s0. cbn. by rewrite Hlist. }
  assert (Hst0 : st_state (state s0) = "run_acquisition_list").
  { unfold s0. cbn. by rewrite Hnever. }
  destruct (run_acquisition_list_summary l (list_entry l s0))
    as (s1 & t & Hrun & Hsum).
  destruct (list_exit_fields l s1) as (_ & _ & _ & Hs & Hf).
  exists (list_exit l s1). split; [by apply start_None |].
  destruct Hsum. rewrite Hf, Hs, Hl.
  change (stopflag (list_entry l s0)) with false in *.
  change (polls (list_entry l s0)) with (polls s) in *.
  split; [done |].
  destruct (stopflag s1) eqn:Hflag1.
  - apply rs_idle0; [| done | done]. intros key v st. apply Hnever.
  - destruct (run_acquisition_list_keeps_state l Hnever _ _ Hrun Hflag1)
      as [_ ->].
    exact Hst0.
Qed.

(** X18. A request for the mode 'lightsheet_alignment_mode' records the mode
    under 'state', announces 'live' to the collaborators, does one alignment
    pass and fails with the [NameError] of its poll: the call does not
    return, no completion is signalled, and 'state' keeps naming the mode. *)
Theorem alignment_request_fails (fuel : nat) (s : Core) :
  never_touches_state ->
  exists s',
    set_state (S fuel) (VStr "lightsheet_alignment_mode") s =
      Raised (NameError "QApplication") s' /\
    trace s' =
      trace s ++ [SigStateRequest "state" (VStr "live") false] ++
      alignment_pass /\
    st_state (state s') = "lightsheet_alignment_mode".
Proof.
  intros Hnever. unfold set_state.
  repeat (case_decide; [discriminate |]). case_decide; [| done].
  unfold request, emit. repeat (rewrite seq_step || rewrite seq_cmd_assoc).
  unfold lightsheet_alignment_mode. rewrite seq_step.
  unfold seq_cmd at 1. cbn [alignment_loop stopflag with_stopflag with_state log].
  match goal with
  | |- context [seq_cmd shutter_left_open _ ?x] =>
      destruct (alignment_pass_raises (alignment_loop fuel) x)
        as (s' & -> & Ht & _ & Hs)
  end.
  exists s'. split; [done |]. rewrite Ht, Hs. cbn.
  split; [by rewrite <- app_assoc | by rewrite Hnever].
Qed.

End Engine.

(** * The engine on the bench *)

Lemma bench_handler_keeps_state : keeps_state bench_handler.
Proof. intros key v st. unfold bench_handler. by case_decide. Defined.

Lemma bench_handler_stores_etl : stores_etl_amplitudes bench_handler.
Proof.
  repeat split; intros v st; unfold bench_handler, getp;
    (case_decide; [discriminate |]); cbn.
  - by rewrite lookup_insert_eq.
  - by rewrite lookup_insert_eq.
  - by rewrite lookup_insert_ne.
Defined.

(** C3. A list of one single-plane acquisition whose only poll finds the
    stop request: the per-plane loop ends without seeing the flag, and
    [close_acquisition] skips [close_image_series] because the flag is set,
    so the task buffers created by the prepare step are never closed. *)
Theorem stop_at_last_plane_leaks_tasks :
  exists s',
    start bench_handler (stop_at 0) bench_dirname bench_basename
      bench_startpoint None
      (bench_core (VStr "Both") false [bench_acq "stack0" 1]) = Done s' /\
    stopflag s' = true /\
    image_count s' = 1 /\
    count is_create (trace s') = 1 /\
    count is_close (trace s') = 0.
Proof. eexists. split; [vm_compute; reflexivity |]. by vm_compute. Qed.

(** A list of three stacks (3, 2 and 3 planes) stopped at the fourth poll,
    that is at plane 1 of the second stack. *)
Lemma stop_during_acquisition_witness :
  exists s_end,
    start bench_handler (stop_at 3) bench_dirname bench_basename
      bench_startpoint None
      (bench_core (VStr "Both") false
         [bench_acq "stack0" 3; bench_acq "stack1" 2; bench_acq "stack2" 3])
      = Done s_end /\
    image_count s_end = 4 /\
    shutter_left s_end = false /\
    shutter_right s_end = false /\
    st_state (state s_end) = "idle".
Proof.
  destruct (stop_during_acquisition bench_handler (stop_at 3) bench_dirname
              bench_basename bench_startpoint
              [bench_acq "stack0" 3] [bench_acq "stack2" 3]
              (bench_acq "stack1" 2) 1 3
              (bench_core (VStr "Both") false
                 [bench_acq "stack0" 3; bench_acq "stack1" 2;
                  bench_acq "stack2" 3]))
    as (s_i & s_c & rest & s_end & _ & _ & _ & _ & _ & _ & _ & _ & _ & _ & _ &
        Hstart & Himg & Hl & Hr & _ & Hidle).
  - reflexivity.
  - cbn. lia.
  - reflexivity.
  - split; [reflexivity |]. intros j Hj. cbn. unfold stop_at.
    apply Nat.eqb_neq. lia.
  - apply bench_handler_keeps_state.
  - exists s_end. by repeat split.
Defined.

(** A list of two stacks (3 and 2 planes) run without a stop request. *)
Lemma progress_of_complete_run_witness :
  exists s' t,
    start bench_handler never_stop bench_dirname bench_basename
      bench_startpoint None
      (bench_core (VStr "Both") false
         [bench_acq "stack0" 3; bench_acq "stack1" 2]) = Done s' /\
    trace s' = [] ++ t /\
    Forall (fun r => Progress.total_image_count r = 5) (progress_of t) /\
    Progress.image_counter <$> progress_of t = [1; 2; 3; 4; 5] /\
    count is_add_images t = 5.
Proof.
  destruct (progress_of_complete_run bench_handler never_stop bench_dirname
              bench_basename bench_startpoint
              (bench_core (VStr "Both") false
                 [bench_acq "stack0" 3; bench_acq "stack1" 2])
              [bench_acq "stack0" 3; bench_acq "stack1" 2] 5)
    as (s' & t & Hstart & Ht & _ & Htot & Hcnt & _ & Hadd & _).
  - reflexivity.
  - reflexivity.
  - intros j _. reflexivity.
  - exists s', t. by repeat split.
Defined.

(** The configuration [None] is none of the three names. *)
Lemma open_shutters_fallback_witness :
  exists s',
    open_shutters (bench_core VNone false []) = Done s' /\
    shutter_left s' = true /\
    shutter_right s' = true /\
    st_shutterstate (state s') = true.
Proof.
  apply (open_shutters_fallback (bench_core VNone false []));
    cbn; discriminate.
Defined.

(** Visual mode stopped at its first poll. *)
Lemma visual_mode_restores_etl_witness :
  exists s',
    visual_mode bench_handler (stop_at 0) 1
      (bench_core (VStr "Both") false []) = Done s' /\
    getp (state s') "etl_l_amplitude" =
      getp (state (bench_core (VStr "Both") false [])) "etl_l_amplitude" /\
    getp (state s') "etl_r_amplitude" =
      getp (state (bench_core (VStr "Both") false [])) "etl_r_amplitude".
Proof.
  apply (visual_mode_restores_etl bench_handler (stop_at 0)
           (bench_core (VStr "Both") false []) 0 1).
  - apply bench_handler_stores_etl.
  - reflexivity.
  - lia.
Defined.

(** A script that raises. *)
Lemma execute_script_contains_failures_witness :
  exists s' t,
    execute_script bench_exec "raise ValueError"
      (bench_core (VStr "Both") false []) = Done s' /\
    st_state (state s') = "idle" /\
    trace s' = t ++ [SigFinished; SigUpdateGui false].
Proof.
  destruct (execute_script_contains_failures bench_exec "raise ValueError"
              (bench_core (VStr "Both") false []))
    as (s' & t & Hrun & Hidle & Ht & _).
  - unfold bench_exec. by case_decide.
  - by exists s', t.
Defined.

(** Two stacks entered with the stop flag set. *)
Lemma stopped_list_still_prepares_witness :
  exists s' rounds,
    run_acquisition_list bench_handler never_stop bench_dirname
      bench_basename [bench_acq "stack1" 2; bench_acq "stack2" 0]
      (bench_core (VStr "Both") true []) = Done s' /\
    stopflag s' = true /\
    trace s' = [] ++ concat rounds /\
    length rounds = 2.
Proof.
  destruct (stopped_list_still_prepares bench_handler never_stop bench_dirname
              bench_basename [bench_acq "stack1" 2; bench_acq "stack2" 0]
              (bench_core (VStr "Both") true []))
    as (s' & rounds & Hrun & Hflag & Ht & Hall).
  - reflexivity.
  - exists s', rounds. repeat split; try done.
    by apply Forall2_length in Hall.
Defined.

(** * Numbering by first appearance *)

Lemma number_key_numbers keystring d c seen acq :
  numbers d c seen ->
  numbers (number_key keystring (d, c) acq).1
    (number_key keystring (d, c) acq).2
    (if decide (keystring acq ∈ seen) then seen else seen ++ [keystring acq]).
Proof.
  intros (Hc & Hnodup & Hd). unfold number_key. cbn [fst snd].
  destruct (d !! keystring acq) as [id|] eqn:Hkey.
  - apply Hd in Hkey as (i & Hi & _).
    rewrite decide_True by (by eapply list_elem_of_lookup_2). done.
  - assert (Hfresh : keystring acq ∉ seen).
    { intros (i & Hi)%list_elem_of_lookup_1.
      assert (d !! keystring acq = Some (pretty i)) by (apply Hd; eauto).
      congruence. }
    rewrite decide_False by done. cbn [fst snd].
    split; [rewrite length_app; cbn; lia |].
    split.
    { apply NoDup_app. split; [done |]. split; [| apply NoDup_singleton].
      intros x Hx ->%list_elem_of_singleton. done. }
    intros key id. rewrite lookup_insert. case_decide as Heq.
    + subst key. split.
      * intros [= <-]. exists (length seen). split; [| by rewrite Hc].
        by rewrite lookup_app_r, Nat.sub_diag by lia.
      * intros (i & Hi & ->). apply lookup_snoc_Some in Hi as [[_ Hi] | [-> _]].
        -- by apply list_elem_of_lookup_2 in Hi.
        -- by rewrite Hc.
    + rewrite Hd. split; intros (i & Hi & ->); exists i; (split; [| done]).
      * apply lookup_snoc_Some. left. split; [| done].
        by eapply lookup_lt_Some.
      * apply lookup_snoc_Some in Hi as [[_ Hi] | [_ Hk]]; [done | congruence].
Qed.

Lemma foldl_number_key_numbers keystring acqlist :
  forall d c seen,
    numbers d c seen ->
    numbers (foldl (number_key keystring) (d, c) acqlist).1
      (foldl (number_key keystring) (d, c) acqlist).2
      (foldl (fun seen key =>
                if decide (key ∈ seen) then seen else seen ++ [key])
         seen (keystring <$> acqlist)).
Proof.
  induction acqlist as [|acq acqlist IH]; intros d c seen Hnum; [done |].
  cbn [foldl fmap list_fmap].
  pose proof (number_key_numbers keystring d c seen acq Hnum) as Hstep.
  destruct (number_key keystring (d, c) acq) as [d' c']. by apply IH.
Qed.

Lemma generate_dict_numbers keystring acqlist :
  exists c,
    numbers (generate_dict keystring acqlist) c
      (first_seen (keystring <$> acqlist)).
Proof.
  eexists. apply (foldl_number_key_numbers keystring acqlist ∅ 0 []).
  split; [done |]. split; [constructor |].
  intros key id. rewrite lookup_empty. split; [done |].
  by intros (i & Hi & _).
Qed.

Lemma first_seen_elem_of (key : string) (keys : list string) :
  forall seen : list string,
    key ∈ foldl (fun seen key =>
                   if decide (key ∈ seen) then seen else seen ++ [key])
            seen keys <->
    key ∈ seen \/ key ∈ keys.
Proof.
  induction keys as [|k keys IH]; intros seen; cbn [foldl].
  - rewrite elem_of_nil. tauto.
  - rewrite IH, elem_of_cons. case_decide.
    + intuition (subst; auto).
    + rewrite elem_of_app, list_elem_of_singleton. tauto.
Qed.

(** X19. Each of the three dictionaries numbers the strings of the list in the
    order of their first appearance: a string is a key exactly when it is
    the string of some acquisition, and its value is the decimal numeral of
    its rank (from 0) among the distinct strings. *)
Theorem generate_dict_ranks (keystring : Acquisition -> string)
    (acqlist : list Acquisition) (key id : string) :
  generate_dict keystring acqlist !! key = Some id <->
  exists i, first_seen (keystring <$> acqlist) !! i = Some key /\ id = pretty i.
Proof.
  destruct (generate_dict_numbers keystring acqlist) as (c & _ & _ & Hd).
  apply Hd.
Qed.

(** X20. Looking up the string of an acquisition of the list never fails, and
    two acquisitions of the list get the same number exactly when their
    strings are equal. *)
Theorem generate_dict_ids (keystring : Acquisition -> string)
    (acqlist : list Acquisition) (acq1 acq2 : Acquisition) :
  acq1 ∈ acqlist ->
  acq2 ∈ acqlist ->
  is_Some (generate_dict keystring acqlist !! keystring acq1) /\
  (generate_dict keystring acqlist !! keystring acq1 =
   generate_dict keystring acqlist !! keystring acq2 <->
   keystring acq1 = keystring acq2).
Proof.
  intros H1 H2.
  destruct (generate_dict_numbers keystring acqlist) as (c & _ & Hnodup & Hd).
  assert (Hin : forall acq, acq ∈ acqlist ->
    exists i, first_seen (keystring <$> acqlist) !! i = Some (keystring acq)).
  { intros acq Hacq. apply list_elem_of_lookup_1, first_seen_elem_of.
    right. by apply list_elem_of_fmap_2. }
  destruct (Hin acq1 H1) as (i1 & Hi1). destruct (Hin acq2 H2) as (i2 & Hi2).
  assert (Hd1 : generate_dict keystring acqlist !! keystring acq1 =
                Some (pretty i1)) by (apply Hd; eauto).
  assert (Hd2 : generate_dict keystring acqlist !! keystring acq2 =
                Some (pretty i2)) by (apply Hd; eauto).
  split; [by eexists |]. rewrite Hd1, Hd2. split.
  - intros [= Heq%(inj pretty)]. subst i2. congruence.
  - intros Heq. rewrite Heq in Hi1.
    by rewrite (NoDup_lookup _ _ _ _ Hnodup Hi1 Hi2).
Qed.

(** The first acquisition of a list is number 0 in each dictionary. *)
Corollary generate_dict_first (keystring : Acquisition -> string)
    (acq : Acquisition) (rest : list Acquisition) :
  generate_dict keystring (acq :: rest) !! keystring acq = Some "0".
Proof.
  destruct (generate_dict_numbers keystring (acq :: rest)) as (c & _ & _ & Hd).
  apply Hd. exists 0. split; [| done].
  unfold first_seen. cbn [fmap list_fmap foldl].
  rewrite decide_False by apply not_elem_of_nil. cbn [app].
  generalize (keystring <$> rest). intros keys.
  assert (Hpre : forall seen : list string,
    seen !! 0 = Some (keystring acq) ->
    foldl (fun seen key =>
             if decide (key ∈ seen) then seen else seen ++ [key])
      seen keys !! 0 = Some (keystring acq)).
  { induction keys as [|k keys IH]; intros seen Hseen; [done |].
    cbn [foldl]. apply IH. case_decide; [done |].
    by apply lookup_app_l_Some. }
  by apply Hpre.
Qed.

(** * Further runs on the bench *)

Lemma bench_handler_never_touches_state : never_touches_state bench_handler.
Proof. intros key v w st. unfold bench_handler. by case_decide. Defined.

Lemma bench_handler_never_touches_acq_list :
  never_touches_acq_list bench_handler.
Proof. intros key v w st. unfold bench_handler. by case_decide. Defined.

(** Row 2 of a list of two. *)
Lemma start_row_out_of_range_witness :
  start bench_handler never_stop bench_dirname bench_basename bench_startpoint
    (Some 2)
    (bench_core (VStr "Both") true
       [bench_acq "stack0" 3; bench_acq "stack1" 2]) =
  Raised IndexError
    (with_stopflag false
       (bench_core (VStr "Both") true
          [bench_acq "stack0" 3; bench_acq "stack1" 2])).
Proof.
  apply (start_row_out_of_range bench_handler never_stop bench_dirname
           bench_basename bench_startpoint 2).
  cbn. lia.
Defined.

(** One stack of three planes, stopped at its second poll, with only the
    left shutter configured. *)
Lemma run_leaves_shutters_closed_witness :
  exists s',
    start bench_handler (stop_at 1) bench_dirname bench_basename
      bench_startpoint None
      (bench_core (VStr "Left") false [bench_acq "stack0" 3]) = Done s' /\
    shutter_left s' = false /\
    shutter_right s' = false /\
    st_shutterstate (state s') = false.
Proof.
  apply (run_leaves_shutters_closed bench_handler (stop_at 1) bench_dirname
           bench_basename bench_startpoint
           (bench_core (VStr "Left") false [bench_acq "stack0" 3])).
  cbn. discriminate.
Defined.

(** Live mode entered with the flag still set from an earlier stop, and
    stopped at its third poll. *)
Lemma live_stops_after_witness :
  exists s' t,
    live bench_handler (stop_at 2) 3 (bench_core (VStr "Both") true []) =
      Done s' /\
    trace s' = t ++ [SigFinished] /\
    count is_create t = 3 /\
    count is_close t = 3 /\
    stopflag s' = true.
Proof.
  destruct (live_stops_after bench_handler (stop_at 2)
              (bench_core (VStr "Both") true []) 2 3)
    as (s' & t & Hlive & Ht & Hcreate & Hclose & _ & _ & _ & _ & _ & Hflag & _).
  - split; [reflexivity |]. intros j Hj. cbn. unfold stop_at.
    apply Nat.eqb_neq. lia.
  - lia.
  - by exists s', t.
Defined.

(** Live mode on a queue without a stop request. *)
Lemma live_runs_until_stopped_witness :
  live bench_handler never_stop 5 (bench_core (VStr "Both") false []) =
  Unfinished.
Proof.
  apply (live_runs_until_stopped bench_handler never_stop
           (bench_core (VStr "Both") false []) 5).
  intros j. reflexivity.
Defined.

(** Visual mode stopped at its second poll. *)
Lemma visual_mode_is_one_series_witness :
  exists s' cycles,
    visual_mode bench_handler (stop_at 1) 2
      (bench_core (VStr "Both") false []) = Done s' /\
    count is_create cycles = 0 /\
    count is_close cycles = 0 /\
    count is_start cycles = 2 /\
    shutter_left s' = false /\
    shutter_right s' = false.
Proof.
  destruct (visual_mode_is_one_series bench_handler (stop_at 1)
              (bench_core (VStr "Both") false []) 1 2)
    as (s' & shutterconfig & cycles & Hrun & Ht & Hcreate & Hclose & Hstart &
        Hleft & Hright & _).
  - split; [reflexivity |]. intros j Hj. cbn. unfold stop_at.
    apply Nat.eqb_neq. lia.
  - lia.
  - by exists s', cycles.
Defined.

(** A list of two stacks (3 and 2 planes) run without a stop request. *)
Lemma progress_stream_of_complete_run_witness :
  exists s' t,
    start bench_handler never_stop bench_dirname bench_basename
      bench_startpoint None
      (bench_core (VStr "Both") false
         [bench_acq "stack0" 3; bench_acq "stack1" 2]) = Done s' /\
    trace s' = [] ++ t /\
    Progress.current_acq <$> progress_of t = [0; 0; 0; 1; 1] /\
    Progress.current_image_in_acq <$> progress_of t = [0; 1; 2; 0; 1] /\
    Progress.image_counter <$> progress_of t = [1; 2; 3; 4; 5].
Proof.
  destruct (progress_stream_of_complete_run bench_handler never_stop
              bench_dirname bench_basename bench_startpoint
              (bench_core (VStr "Both") false
                 [bench_acq "stack0" 3; bench_acq "stack1" 2]))
    as (s' & t & Hstart & Ht & Hprogress).
  - intros j _. reflexivity.
  - exists s', t. rewrite Hprogress. by repeat split.
Defined.

(** Row 1 of a list of two stacks. *)
Lemma start_row_runs_that_acquisition_witness :
  exists s' t,
    start bench_handler never_stop bench_dirname bench_basename
      bench_startpoint (Some 1)
      (bench_core (VStr "Both") false
         [bench_acq "stack0" 3; bench_acq "stack1" 2]) = Done s' /\
    trace s' = [] ++ t /\
    count is_file_write t = 1 /\
    count is_add_images t = 2.
Proof.
  destruct (start_row_runs_that_acquisition bench_handler never_stop
              bench_dirname bench_basename bench_startpoint 1
              (bench_acq "stack1" 2)
              (bench_core (VStr "Both") false
                 [bench_acq "stack0" 3; bench_acq "stack1" 2]))
    as (s' & t & Hstart & Ht & Hfile & Hadd & _).
  - reflexivity.
  - intros j _. reflexivity.
  - by exists s', t.
Defined.

(** One stack of two planes. *)
Lemma acquisition_event_order_witness :
  exists s',
    acquire bench_handler never_stop bench_dirname bench_basename
      (bench_acq "stack0" 2) (bench_core (VStr "Both") false []) = Done s' /\
    stopflag s' = false /\
    last (trace s') = Some SigEndImageSeries.
Proof.
  destruct (acquisition_event_order bench_handler never_stop bench_dirname
              bench_basename (bench_acq "stack0" 2)
              (bench_core (VStr "Both") false []))
    as (s' & shutterconfig & Hrun & Hflag & Ht).
  - reflexivity.
  - intros j _. reflexivity.
  - exists s'. split; [done |]. split; [done |].
    rewrite Ht, !app_assoc.
    change [ShutterLeft false; ShutterRight false;
            SigMoveAbsolute (startpoint (bench_acq "stack0" 2)) true;
            WfClose; SigEndImageSeries]
      with ([ShutterLeft false; ShutterRight false;
             SigMoveAbsolute (startpoint (bench_acq "stack0" 2)) true;
             WfClose] ++ [SigEndImageSeries]).
    rewrite app_assoc. apply last_snoc.
Defined.

(** A file beside the metadata files of a list of two stacks. *)
Lemma run_writes_only_metadata_witness :
  exists s',
    start bench_handler (stop_at 1) bench_dirname bench_basename
      bench_startpoint None
      (bench_core (VStr "Both") false
         [bench_acq "stack0" 3; bench_acq "stack1" 2]) = Done s' /\
    files s' !! "data/notes.txt" = None.
Proof.
  apply (run_writes_only_metadata bench_handler (stop_at 1) bench_dirname
           bench_basename bench_startpoint
           (bench_core (VStr "Both") false
              [bench_acq "stack0" 3; bench_acq "stack1" 2])
           "data/notes.txt").
  apply (bool_decide_unpack _). vm_compute. exact I.
Defined.

(** Two members that share folder and file name: the file is the record
    of the second, which has two planes. *)
Lemma last_acquisition_owns_metadata_witness :
  exists s' content,
    start bench_handler never_stop bench_dirname bench_basename
      bench_startpoint None
      (bench_core (VStr "Both") false
         [bench_acq "stack0" 3; bench_acq "stack0" 2]) = Done s' /\
    files s' !! metadata_path bench_dirname bench_basename
                  (bench_acq "stack0" 2) = Some content /\
    (read_line <$> content) !! 1 = Some (Entry "z_stepsize" "2.0") /\
    (read_line <$> content) !! 18 = Some (Entry "z_planes" "2").
Proof.
  destruct (last_acquisition_owns_metadata bench_handler never_stop
              bench_dirname bench_basename bench_startpoint
              (bench_core (VStr "Both") false
                 [bench_acq "stack0" 3; bench_acq "stack0" 2])
              [bench_acq "stack0" 3] [] (bench_acq "stack0" 2))
    as (s_i & s' & content & _ & Hstart & Hfile & Hread).
  - reflexivity.
  - apply not_elem_of_nil.
  - exists s', content. rewrite Hread. by repeat split.
Defined.

(** An unknown key and an unknown mode. *)
Lemma unknown_requests_are_dropped_witness :
  state_request_handler bench_handler never_stop bench_dirname bench_basename
    bench_startpoint 5
    [("colour", VInt 1); ("state", VStr "sleeping")]
    (bench_core (VStr "Both") false []) =
  Done (bench_core (VStr "Both") false []).
Proof.
  apply (unknown_requests_are_dropped bench_handler never_stop bench_dirname
           bench_basename bench_startpoint 5).
  constructor; [| constructor; [| constructor]].
  - left. split; apply (bool_decide_unpack _); vm_compute; exact I.
  - right. split; [reflexivity |].
    apply (bool_decide_unpack _). vm_compute. exact I.
Defined.

(** Two waveform parameters. *)
Lemma waveform_requests_are_forwarded_witness :
  exists s',
    state_request_handler bench_handler never_stop bench_dirname
      bench_basename bench_startpoint 5
      [("etl_l_amplitude", VFloat "0.5"); ("galvo_r_phase", VInt 1)]
      (bench_core (VStr "Both") false []) = Done s' /\
    trace s' =
      [SigStateRequest "etl_l_amplitude" (VFloat "0.5") false;
       SigStateRequest "galvo_r_phase" (VInt 1) false] /\
    getp (state s') "etl_l_amplitude" = VFloat "0.5".
Proof.
  destruct (waveform_requests_are_forwarded bench_handler never_stop
              bench_dirname bench_basename bench_startpoint 5
              [("etl_l_amplitude", VFloat "0.5"); ("galvo_r_phase", VInt 1)]
              (bench_core (VStr "Both") false []))
    as (s' & Hrun & Ht & Hstate & _).
  - constructor; [| constructor; [| constructor]];
      apply (bool_decide_unpack _); vm_compute; exact I.
  - exists s'. split; [done |]. split; [done |]. by rewrite Hstate.
Defined.

(** The list mode requested for two stacks, with a stop request at the
    second poll. *)
Lemma run_mode_state_after_witness :
  exists s',
    set_state bench_handler (stop_at 1) bench_dirname bench_basename
      bench_startpoint 5 (VStr "run_acquisition_list")
      (bench_core (VStr "Both") false
         [bench_acq "stack0" 3; bench_acq "stack1" 2]) = Done s' /\
    stopflag s' = true /\
    st_state (state s') = "idle".
Proof.
  destruct (run_mode_state_after bench_handler (stop_at 1) bench_dirname
              bench_basename bench_startpoint 5
              (bench_core (VStr "Both") false
                 [bench_acq "stack0" 3; bench_acq "stack1" 2]))
    as (s' & Hrun & Hflag & Hstate).
  - apply bench_handler_never_touches_state.
  - apply bench_handler_never_touches_acq_list.
  - exists s'. split; [done |].
    assert (Hset : stopflag s' = true) by (by rewrite Hflag).
    split; [done |]. by rewrite Hstate, Hset.
Defined.

(** The alignment mode requested on the idle engine. *)
Lemma alignment_request_fails_witness :
  exists s',
    set_state bench_handler never_stop bench_dirname bench_basename
      bench_startpoint 1 (VStr "lightsheet_alignment_mode")
      (bench_core (VStr "Both") false []) =
      Raised (NameError "QApplication") s' /\
    st_state (state s') = "lightsheet_alignment_mode".
Proof.
  destruct (alignment_request_fails bench_handler never_stop bench_dirname
              bench_basename bench_startpoint 0
              (bench_core (VStr "Both") false []))
    as (s' & Hrun & _ & Hstate).
  - apply bench_handler_never_touches_state.
  - by exists s'.
Defined.

(** Two stacks taken with the same laser and filter are one channel. *)
Lemma generate_dict_ids_witness :
  generate_channeldict [bench_acq "stack0" 3; bench_acq "stack1" 2]
    !! generate_channelstring (bench_acq "stack0" 3) =
  generate_channeldict [bench_acq "stack0" 3; bench_acq "stack1" 2]
    !! generate_channelstring (bench_acq "stack1" 2).
Proof.
  apply (generate_dict_ids generate_channelstring
           [bench_acq "stack0" 3; bench_acq "stack1" 2]
           (bench_acq "stack0" 3) (bench_acq "stack1" 2)).
  - left.
  - right. left.
  - reflexivity.
Defined.
